(** * hpp-fcl: collision geometries, collision objects and the distance front end

    A shallow embedding of [include/hpp/fcl/collision_object.h] and
    [include/hpp/fcl/distance.h].

    - [FCL_REAL] is [double]: IEEE 754 binary64, modelled by the Standard
      Library's [spec_float] at precision 53 and maximal exponent 1024, with
      round-to-nearest-even arithmetic, signed zeros, infinities and NaN.
    - [Vec3f] and [Matrix3f] are Eigen's fixed-size 3-vector and 3x3 matrix.
    - A [shared_ptr<CollisionGeometry>] is an optional address into a heap of
      geometry objects; two objects may hold the same address.
    - Member functions that can dereference a null pointer return an
      [outcome]. *)

From Stdlib Require Import ZArith Bool SpecFloat.
From stdpp Require Import base tactics option gmap.

Set Default Proof Using "Type".

(** ** Scalars *)

Definition FCL_REAL : Type := spec_float.

Module Real.
Definition prec : Z := 53.
Definition emax : Z := 1024.

Definition add : FCL_REAL -> FCL_REAL -> FCL_REAL := SFadd prec emax.
Definition sub : FCL_REAL -> FCL_REAL -> FCL_REAL := SFsub prec emax.
Definition mul : FCL_REAL -> FCL_REAL -> FCL_REAL := SFmul prec emax.
Definition abs : FCL_REAL -> FCL_REAL := SFabs.

(** The comparison operators of C++ on [double]: every comparison with a
    NaN is false. *)
Definition eqb (x y : FCL_REAL) : bool :=
  match SFcompare x y with Some Eq => true | _ => false end.
Definition leb (x y : FCL_REAL) : bool :=
  match SFcompare x y with Some (Lt | Eq) => true | _ => false end.
Definition geb (x y : FCL_REAL) : bool :=
  match SFcompare x y with Some (Gt | Eq) => true | _ => false end.

(** Conversion of an integer literal to [double]. *)
Definition of_int (z : Z) : FCL_REAL := binary_normalize prec emax z 0 false.

(** [std::numeric_limits<double>::max()] and the macro [NAN]. *)
Definition max : FCL_REAL := SFmax_float prec emax.
Definition NAN : FCL_REAL := S754_nan.

(** A value of the format: the mantissa is canonical and the exponent in
    range. *)
Definition valid (x : FCL_REAL) : bool := valid_binary prec emax x.

(** Neither an infinity nor a NaN. *)
Definition is_finite (x : FCL_REAL) : bool :=
  match x with
  | S754_zero _ | S754_finite _ _ _ => true
  | S754_infinity _ | S754_nan => false
  end.

Definition is_zero (x : FCL_REAL) : bool :=
  match x with S754_zero _ => true | _ => false end.
End Real.

Declare Scope real_scope.
Delimit Scope real_scope with real.
Bind Scope real_scope with FCL_REAL.
Infix "+" := Real.add : real_scope.
Infix "-" := Real.sub : real_scope.
Infix "*" := Real.mul : real_scope.
Infix "==" := Real.eqb (at level 70, no associativity) : real_scope.
Infix "<=?" := Real.leb : real_scope.
Infix ">=?" := Real.geb : real_scope.

(** ** Eigen vectors and matrices *)

Record Vec3f : Type := mkVec3f { v0 : FCL_REAL; v1 : FCL_REAL; v2 : FCL_REAL }.

Record Matrix3f : Type := mkMatrix3f { row0 : Vec3f; row1 : Vec3f; row2 : Vec3f }.

Module Eigen.
(** [Vec3f::Constant(c)] and [Vec3f::Zero()]. *)
Definition Vec3f_Constant (c : FCL_REAL) : Vec3f := mkVec3f c c c.
Definition Vec3f_Zero : Vec3f := Vec3f_Constant (Real.of_int 0).

(** [Matrix3f::Constant(c)]. *)
Definition Matrix3f_Constant (c : FCL_REAL) : Matrix3f :=
  mkMatrix3f (Vec3f_Constant c) (Vec3f_Constant c) (Vec3f_Constant c).

(** [v[i]]; the source only uses the literal indices 0, 1 and 2. *)
Definition coeff (v : Vec3f) (i : nat) : FCL_REAL :=
  match i with 0 => v0 v | 1 => v1 v | _ => v2 v end.

Definition row (M : Matrix3f) (i : nat) : Vec3f :=
  match i with 0 => row0 M | 1 => row1 M | _ => row2 M end.

(** [M(i, j)]. *)
Definition at_ (M : Matrix3f) (i j : nat) : FCL_REAL := coeff (row M i) j.

(** [(Matrix3f() << a, b, c, d, e, f, g, h, i).finished()]: the comma
    initialiser fills the matrix row by row. *)
Definition comma_init (a b c d e f g h i : FCL_REAL) : Matrix3f :=
  mkMatrix3f (mkVec3f a b c) (mkVec3f d e f) (mkVec3f g h i).

(** Coefficient-wise [u + v] and [u - v]. *)
Definition vadd (u v : Vec3f) : Vec3f :=
  mkVec3f (v0 u + v0 v) (v1 u + v1 v) (v2 u + v2 v).
Definition vsub (u v : Vec3f) : Vec3f :=
  mkVec3f (v0 u - v0 v) (v1 u - v1 v) (v2 u - v2 v).
End Eigen.

Notation "v .[ i ]" := (Eigen.coeff v i) (at level 1, left associativity, format "v .[ i ]").
Notation "M .( i , j )" := (Eigen.at_ M i j) (at level 1, left associativity, format "M .( i ,  j )").

(** ** Axis-aligned boxes *)

(** [AABB] (BV/AABB.h): the two corners [min_] and [max_]. *)
Record AABB : Type := mkAABB { min_ : Vec3f; max_ : Vec3f }.

(** ** Type tags *)

Inductive OBJECT_TYPE : Type :=
  OT_UNKNOWN | OT_BVH | OT_GEOM | OT_OCTREE | OT_HFIELD | OT_COUNT.

Inductive NODE_TYPE : Type :=
  | BV_UNKNOWN | BV_AABB | BV_OBB | BV_RSS | BV_kIOS | BV_OBBRSS
  | BV_KDOP16 | BV_KDOP18 | BV_KDOP24
  | GEOM_BOX | GEOM_SPHERE | GEOM_CAPSULE | GEOM_CONE | GEOM_CYLINDER
  | GEOM_CONVEX | GEOM_PLANE | GEOM_HALFSPACE | GEOM_TRIANGLE | GEOM_OCTREE
  | GEOM_ELLIPSOID | HF_AABB | HF_OBBRSS | NODE_COUNT.

(** ** CollisionGeometry *)

(** An address, and a pointer: [None] is [nullptr]. *)
Definition loc : Type := positive.
Definition pointer : Type := option loc.

(** A [void*]. *)
Definition void_ptr : Type := pointer.

(** The data members of [CollisionGeometry]. *)
Record CollisionGeometry : Type := mkCollisionGeometry {
  aabb_center : Vec3f;
  aabb_radius : FCL_REAL;
  aabb_local : AABB;
  user_data : void_ptr;
  cost_density : FCL_REAL;
  threshold_occupied : FCL_REAL;
  threshold_free : FCL_REAL
}.

(** [CollisionGeometry::CollisionGeometry()]. The members [aabb_local] and
    [user_data] are not in the initialiser list: [aabb_local] is
    default-constructed by [AABB::AABB()] (BV/AABB.h) and [user_data] is left
    as it is; both are taken as arguments. *)
Definition CollisionGeometry_new (aabb0 : AABB) (ud : void_ptr) : CollisionGeometry :=
  {| aabb_center := Eigen.Vec3f_Constant Real.max;
     aabb_radius := Real.of_int (-1);
     aabb_local := aabb0;
     user_data := ud;
     cost_density := Real.of_int 1;
     threshold_occupied := Real.of_int 1;
     threshold_free := Real.of_int 0 |}.

(** [CollisionGeometry::CollisionGeometry(const CollisionGeometry&)]: the
    five members of the initialiser list are copied. *)
Definition CollisionGeometry_copy (aabb0 : AABB) (ud : void_ptr)
    (other : CollisionGeometry) : CollisionGeometry :=
  {| aabb_center := aabb_center other;
     aabb_radius := aabb_radius other;
     aabb_local := aabb0;
     user_data := ud;
     cost_density := cost_density other;
     threshold_occupied := threshold_occupied other;
     threshold_free := threshold_free other |}.

Definition getUserData (g : CollisionGeometry) : void_ptr := user_data g.

Definition setUserData (data : void_ptr) (g : CollisionGeometry) : CollisionGeometry :=
  {| aabb_center := aabb_center g;
     aabb_radius := aabb_radius g;
     aabb_local := aabb_local g;
     user_data := data;
     cost_density := cost_density g;
     threshold_occupied := threshold_occupied g;
     threshold_free := threshold_free g |}.

(** [isOccupied]: [cost_density >= threshold_occupied]. *)
Definition isOccupied (g : CollisionGeometry) : bool :=
  (cost_density g >=? threshold_occupied g)%real.

(** [isFree]: [cost_density <= threshold_free]. *)
Definition isFree (g : CollisionGeometry) : bool :=
  (cost_density g <=? threshold_free g)%real.

(** ** Virtual member functions

    The dynamic class of a geometry object: what a derived class overrides.
    [computeLocalAABB] is pure virtual, so a derived class supplies it; for a
    virtual with a body in [CollisionGeometry], [None] says that the derived
    class inherits that body. A derived class's own data members are read by
    its overriders only and are held in their closures. *)
Record GeometryClass : Type := mkGeometryClass {
  override_getObjectType : option (CollisionGeometry -> OBJECT_TYPE);
  override_getNodeType : option (CollisionGeometry -> NODE_TYPE);
  override_computeLocalAABB : CollisionGeometry -> CollisionGeometry;
  override_computeCOM : option (CollisionGeometry -> Vec3f);
  override_computeMomentofInertia : option (CollisionGeometry -> Matrix3f);
  override_computeVolume : option (CollisionGeometry -> FCL_REAL);
  override_computeMomentofInertiaRelatedToCOM : option (CollisionGeometry -> Matrix3f)
}.

(** Virtual dispatch: the overrider when there is one, the base body otherwise. *)
Definition dispatch {A : Type} (overrider : option (CollisionGeometry -> A))
    (base : CollisionGeometry -> A) (g : CollisionGeometry) : A :=
  match overrider with
  | Some f => f g
  | None => base g
  end.

Section Virtuals.
Variable cls : GeometryClass.

Definition getObjectType : CollisionGeometry -> OBJECT_TYPE :=
  dispatch (override_getObjectType cls) (fun _ => OT_UNKNOWN).

Definition getNodeType : CollisionGeometry -> NODE_TYPE :=
  dispatch (override_getNodeType cls) (fun _ => BV_UNKNOWN).

Definition computeLocalAABB : CollisionGeometry -> CollisionGeometry :=
  override_computeLocalAABB cls.

Definition computeCOM : CollisionGeometry -> Vec3f :=
  dispatch (override_computeCOM cls) (fun _ => Eigen.Vec3f_Zero).

Definition computeMomentofInertia : CollisionGeometry -> Matrix3f :=
  dispatch (override_computeMomentofInertia cls)
           (fun _ => Eigen.Matrix3f_Constant Real.NAN).

Definition computeVolume : CollisionGeometry -> FCL_REAL :=
  dispatch (override_computeVolume cls) (fun _ => Real.of_int 0).

(** The body of [CollisionGeometry::computeMomentofInertiaRelatedToCOM]. *)
Definition base_computeMomentofInertiaRelatedToCOM (g : CollisionGeometry) : Matrix3f :=
  let C := computeMomentofInertia g in
  let com := computeCOM g in
  let V := computeVolume g in
  Eigen.comma_init
    (C.(0, 0) - V * (com.[1] * com.[1] + com.[2] * com.[2]))
    (C.(0, 1) + V * com.[0] * com.[1])
    (C.(0, 2) + V * com.[0] * com.[2])
    (C.(1, 0) + V * com.[1] * com.[0])
    (C.(1, 1) - V * (com.[0] * com.[0] + com.[2] * com.[2]))
    (C.(1, 2) + V * com.[1] * com.[2])
    (C.(2, 0) + V * com.[2] * com.[0])
    (C.(2, 1) + V * com.[2] * com.[1])
    (C.(2, 2) - V * (com.[0] * com.[0] + com.[1] * com.[1])).

Definition computeMomentofInertiaRelatedToCOM : CollisionGeometry -> Matrix3f :=
  dispatch (override_computeMomentofInertiaRelatedToCOM cls)
           base_computeMomentofInertiaRelatedToCOM.
End Virtuals.

(** A class that overrides none of the virtuals that have a body. *)
Definition plain_class (localAABB : CollisionGeometry -> CollisionGeometry) : GeometryClass :=
  mkGeometryClass None None localAABB None None None None.

(** ** Rigid transforms and moved boxes *)

Module Transform3f.
(** [M * v] for a 3x3 matrix and a 3-vector, each coefficient the row's
    products summed from left to right. *)
Definition dot (u v : Vec3f) : FCL_REAL :=
  (v0 u * v0 v + v1 u * v1 v + v2 u * v2 v)%real.
Definition mulv (M : Matrix3f) (v : Vec3f) : Vec3f :=
  mkVec3f (dot (row0 M) v) (dot (row1 M) v) (dot (row2 M) v).

(** [Matrix3f::Identity()]. *)
Definition Matrix3f_Identity : Matrix3f :=
  Eigen.comma_init (Real.of_int 1) (Real.of_int 0) (Real.of_int 0)
                   (Real.of_int 0) (Real.of_int 1) (Real.of_int 0)
                   (Real.of_int 0) (Real.of_int 0) (Real.of_int 1).

(** Modelled from the spec: the class [Transform3f] of math/transform.h,
    which is not among the sources: a rotation [R] and a translation [T],
    their getters and setters, and [transform], which maps [v] to
    [R * v + T]. *)
Record t : Type := mk { R : Matrix3f; T : Vec3f }.

Definition getRotation (tf : t) : Matrix3f := R tf.
Definition getTranslation (tf : t) : Vec3f := T tf.
Definition setRotation (R_ : Matrix3f) (tf : t) : t := mk R_ (T tf).
Definition setTranslation (T_ : Vec3f) (tf : t) : t := mk (R tf) T_.
Definition setTransform (R_ : Matrix3f) (T_ : Vec3f) (tf : t) : t := mk R_ T_.
Definition setIdentity (tf : t) : t := mk Matrix3f_Identity Eigen.Vec3f_Zero.
Definition transform (tf : t) (v : Vec3f) : Vec3f :=
  Eigen.vadd (mulv (R tf) v) (T tf).
End Transform3f.

(** Modelled from the spec: [translate] of BV/AABB.h, which is not among the
    sources: the box with both corners moved by [t]. *)
Definition translate (box : AABB) (t : Vec3f) : AABB :=
  mkAABB (Eigen.vadd (min_ box) t) (Eigen.vadd (max_ box) t).

(** ** The heap of shared geometries *)

(** [shared_ptr<CollisionGeometry>]; [None] is the empty pointer. *)
Definition shared_ptr : Type := pointer.

(** A geometry object on the heap: its data members and its dynamic class. *)
Record GeometryObject : Type := mkGeometryObject {
  members : CollisionGeometry;
  class_of : GeometryClass
}.

(** The heap, and the log of the calls of [computeLocalAABB]: the address of
    the receiver of each call, the latest first. The heap holds every
    geometry that was allocated: reference counts are not modelled, and the
    destruction of a geometry when its last [shared_ptr] is released or
    reassigned is not shown. *)
Record World : Type := mkWorld {
  heap : gmap loc GeometryObject;
  computeLocalAABB_calls : list loc
}.

(** The result of a member function: a value, or the undefined behaviour of
    dereferencing a pointer that points to no object. *)
Inductive outcome (A : Type) : Type :=
  | Ok (a : A)
  | Fault.
Arguments Ok {A} a.
Arguments Fault {A}.

(** Computations that read and write a state [S] and may fault. *)
Definition M (S A : Type) : Type := S -> outcome (A * S).

Definition ret {S A : Type} (a : A) : M S A := fun w => Ok (a, w).

Definition bind {S A B : Type} (m : M S A) (k : A -> M S B) : M S B :=
  fun w => match m w with
           | Ok (a, w') => k a w'
           | Fault => Fault
           end.

Notation "x <- m ;; k" := (bind m (fun x => k))
  (at level 100, m at next level, right associativity).
Notation "m ;;; k" := (bind m (fun _ => k))
  (at level 100, right associativity).

(** [*p] and [p->...]: the object [p] points to. *)
Definition deref (p : shared_ptr) : M World GeometryObject :=
  fun w => match p with
           | Some a => match heap w !! a with
                       | Some g => Ok (g, w)
                       | None => Fault
                       end
           | None => Fault
           end.

(** The object after its [computeLocalAABB] has run: the overrider of its
    class has updated its data members. *)
Definition with_local_bound (g : GeometryObject) : GeometryObject :=
  mkGeometryObject (computeLocalAABB (class_of g) (members g)) (class_of g).

(** [p->computeLocalAABB()]: the object is updated in place and the call is
    logged. *)
Definition call_computeLocalAABB (p : shared_ptr) : M World unit :=
  fun w => match p with
           | Some a =>
               match heap w !! a with
               | Some g =>
                   Ok (tt, mkWorld (<[a := with_local_bound g]> (heap w))
                                   (a :: computeLocalAABB_calls w))
               | None => Fault
               end
           | None => Fault
           end.

(** The world after the optional [computeLocalAABB] of [init] on the object
    [g] at address [a]. *)
Definition after_local_bound (flag : bool) (a : loc) (g : GeometryObject)
    (w : World) : World :=
  if flag then mkWorld (<[a := with_local_bound g]> (heap w))
                       (a :: computeLocalAABB_calls w)
  else w.

(** ** CollisionObject *)

Module CollisionObject.
(** The data members of [CollisionObject]. *)
Record object : Type := mk {
  cgeom : shared_ptr;
  t : Transform3f.t;
  aabb : AABB;
  user_data : void_ptr
}.

Definition set_t (tf : Transform3f.t) (o : object) : object :=
  mk (cgeom o) tf (aabb o) (user_data o).
Definition set_aabb (b : AABB) (o : object) : object :=
  mk (cgeom o) (t o) b (user_data o).
Definition set_cgeom (p : shared_ptr) (o : object) : object :=
  mk p (t o) (aabb o) (user_data o).

Section Members.
(** What the class takes from headers that are not among the sources:
    Eigen's [MatrixBase::isIdentity()] at its default precision, and the
    values of a default-constructed [AABB] and [Transform3f]. *)
Variable isIdentity : Matrix3f -> bool.
Variable AABB_default : AABB.
Variable Transform3f_default : Transform3f.t.

Definition getObjectType (o : object) : M World OBJECT_TYPE :=
  g <- deref (cgeom o) ;; ret (getObjectType (class_of g) (members g)).

Definition getNodeType (o : object) : M World NODE_TYPE :=
  g <- deref (cgeom o) ;; ret (getNodeType (class_of g) (members g)).

Definition getAABB (o : object) : AABB := aabb o.

Definition computeAABB (o : object) : M World object :=
  if isIdentity (Transform3f.getRotation (t o)) then
    g <- deref (cgeom o) ;;
    ret (set_aabb (translate (aabb_local (members g))
                             (Transform3f.getTranslation (t o))) o)
  else
    g <- deref (cgeom o) ;;
    let center := Transform3f.transform (t o) (aabb_center (members g)) in
    g' <- deref (cgeom o) ;;
    let delta := Eigen.Vec3f_Constant (aabb_radius (members g')) in
    let o := set_aabb (mkAABB (Eigen.vsub center delta) (max_ (aabb o))) o in
    let o := set_aabb (mkAABB (min_ (aabb o)) (Eigen.vadd center delta)) o in
    ret o.

(** The box [computeAABB] stores, as a function of the transform and of
    the geometry's data members. *)
Definition world_bound (tf : Transform3f.t) (g : CollisionGeometry) : AABB :=
  if isIdentity (Transform3f.getRotation tf) then
    translate (aabb_local g) (Transform3f.getTranslation tf)
  else
    let center := Transform3f.transform tf (aabb_center g) in
    let delta := Eigen.Vec3f_Constant (aabb_radius g) in
    mkAABB (Eigen.vsub center delta) (Eigen.vadd center delta).

Definition getUserData (o : object) : void_ptr := user_data o.
Definition setUserData (data : void_ptr) (o : object) : object :=
  mk (cgeom o) (t o) (aabb o) data.

Definition getTranslation (o : object) : Vec3f := Transform3f.getTranslation (t o).
Definition getRotation (o : object) : Matrix3f := Transform3f.getRotation (t o).
Definition getTransform (o : object) : Transform3f.t := t o.

Definition setRotation (R : Matrix3f) (o : object) : object :=
  set_t (Transform3f.setRotation R (t o)) o.
Definition setTranslation (T : Vec3f) (o : object) : object :=
  set_t (Transform3f.setTranslation T (t o)) o.
(** [setTransform(R, T)] and [setTransform(tf)]. *)
Definition setTransform_RT (R : Matrix3f) (T : Vec3f) (o : object) : object :=
  set_t (Transform3f.setTransform R T (t o)) o.
Definition setTransform (tf : Transform3f.t) (o : object) : object :=
  set_t tf o.
Definition setIdentityTransform (o : object) : object :=
  set_t (Transform3f.setIdentity (t o)) o.

Definition collisionGeometry (o : object) : shared_ptr := cgeom o.

Definition init (compute_local_aabb : bool) (o : object) : M World object :=
  match cgeom o with
  | Some _ =>
      (if compute_local_aabb then call_computeLocalAABB (cgeom o) else ret tt) ;;;
      computeAABB o
  | None => ret o
  end.

(** The three constructors: from a geometry; from a geometry and a
    transform; from a geometry, a rotation and a translation. The member
    [aabb] is default-constructed before the body runs. *)
Definition new (cgeom_ : shared_ptr) (compute_local_aabb : bool) : M World object :=
  init compute_local_aabb (mk cgeom_ Transform3f_default AABB_default None).
Definition new_tf (cgeom_ : shared_ptr) (tf : Transform3f.t)
    (compute_local_aabb : bool) : M World object :=
  init compute_local_aabb (mk cgeom_ tf AABB_default None).
Definition new_RT (cgeom_ : shared_ptr) (R : Matrix3f) (T : Vec3f)
    (compute_local_aabb : bool) : M World object :=
  init compute_local_aabb (mk cgeom_ (Transform3f.mk R T) AABB_default None).

Definition setCollisionGeometry (collision_geometry : shared_ptr)
    (compute_local_aabb : bool) (o : object) : M World object :=
  if bool_decide (collision_geometry <> cgeom o) then
    let o := set_cgeom collision_geometry o in
    init compute_local_aabb o
  else ret o.
End Members.
End CollisionObject.

(** ** The distance front end (distance.h) *)

Module Distance.
Section Overloads.
(** What distance.h takes from elsewhere: the request and result classes
    of collision_data.h with [QueryRequest::updateGuess], the memory the
    narrow phase works on, and the overloads that take the request by
    const reference, which the header declares and distance.cpp defines.
    A const-request overload leaves the request as it is; it returns the
    distance and the result it has filled, or does not return. *)
Variables DistanceRequest DistanceResult Memory : Type.
Variable updateGuess : DistanceRequest -> DistanceResult -> DistanceRequest.

Variable distance_objects_const :
  pointer -> pointer -> DistanceRequest -> DistanceResult ->
  M Memory (FCL_REAL * DistanceResult).
Variable distance_geometries_const :
  pointer -> Transform3f.t -> pointer -> Transform3f.t ->
  DistanceRequest -> DistanceResult ->
  M Memory (FCL_REAL * DistanceResult).

(** [distance(o1, o2, request, result)] with a mutable request: the
    value, the request and the result after the call. *)
Definition distance_objects (o1 o2 : pointer)
    (request : DistanceRequest) (result : DistanceResult)
    : M Memory (FCL_REAL * DistanceRequest * DistanceResult) :=
  r <- distance_objects_const o1 o2 request result ;;
  let res := fst r in
  let result := snd r in
  let request := updateGuess request result in
  ret (res, request, result).

(** [distance(o1, tf1, o2, tf2, request, result)] with a mutable request. *)
Definition distance_geometries (o1 : pointer) (tf1 : Transform3f.t)
    (o2 : pointer) (tf2 : Transform3f.t)
    (request : DistanceRequest) (result : DistanceResult)
    : M Memory (FCL_REAL * DistanceRequest * DistanceResult) :=
  r <- distance_geometries_const o1 tf1 o2 tf2 request result ;;
  let res := fst r in
  let result := snd r in
  let request := updateGuess request result in
  ret (res, request, result).

(** [ComputeDistance]: the class's data members are used by the
    const-request [operator()] only, which is declared in the header and
    defined in distance.cpp. *)
Variable ComputeDistance : Type.
Variable call_const :
  ComputeDistance -> Transform3f.t -> Transform3f.t ->
  DistanceRequest -> DistanceResult ->
  M Memory (FCL_REAL * DistanceResult).

(** [ComputeDistance::operator()] with a mutable request. *)
Definition call (this : ComputeDistance) (tf1 tf2 : Transform3f.t)
    (request : DistanceRequest) (result : DistanceResult)
    : M Memory (FCL_REAL * DistanceRequest * DistanceResult) :=
  r <- call_const this tf1 tf2 request result ;;
  let res := fst r in
  let result := snd r in
  let request := updateGuess request result in
  ret (res, request, result).
End Overloads.
End Distance.

(** What a mutable-request overload does given what the const-request
    overload does on the same arguments: both return or neither does; when
    they return, the value, the result and the memory are the same, and the
    request is [updateGuess] of the request and that result. *)
Definition agrees_and_updates_guess {DistanceRequest DistanceResult Memory : Type}
    (updateGuess : DistanceRequest -> DistanceResult -> DistanceRequest)
    (request : DistanceRequest)
    (mutable : outcome (FCL_REAL * DistanceRequest * DistanceResult * Memory))
    (const : outcome (FCL_REAL * DistanceResult * Memory)) : Prop :=
  match mutable, const with
  | Ok (res, request', result, m), Ok (res0, result0, m0) =>
      res = res0 /\ result = result0 /\ m = m0 /\
      request' = updateGuess request result0
  | Fault, Fault => True
  | _, _ => False
  end.

(** ** Equality of geometries *)

(** Eigen's [u == v] on vectors: every coefficient compares equal. *)
Definition Vec3f_eqb (u v : Vec3f) : bool :=
  (v0 u == v0 v)%real && (v1 u == v1 v)%real && (v2 u == v2 v)%real.

Section GeometryEquality.
(** [AABB::operator==] is declared in BV/AABB.h, which is not among the
    sources. *)
Variable AABB_eqb : AABB -> AABB -> bool.

(** [CollisionGeometry::operator==]; the comparison of [user_data] is
    commented out in the source. *)
Definition operator_eq (this other : CollisionGeometry) : bool :=
  (cost_density this == cost_density other)%real
  && (threshold_occupied this == threshold_occupied other)%real
  && (threshold_free this == threshold_free other)%real
  && Vec3f_eqb (aabb_center this) (aabb_center other)
  && (aabb_radius this == aabb_radius other)%real
  && AABB_eqb (aabb_local this) (aabb_local other).

(** [CollisionGeometry::operator!=]. *)
Definition operator_ne (this other : CollisionGeometry) : bool :=
  negb (operator_eq this other).
End GeometryEquality.

(** No NaN among the scalar members that [operator==] compares. *)
Definition is_nan (x : FCL_REAL) : bool :=
  match x with S754_nan => true | _ => false end.
Definition nan_free (g : CollisionGeometry) : bool :=
  negb (is_nan (cost_density g)) && negb (is_nan (threshold_occupied g))
  && negb (is_nan (threshold_free g))
  && negb (is_nan (v0 (aabb_center g))) && negb (is_nan (v1 (aabb_center g)))
  && negb (is_nan (v2 (aabb_center g)))
  && negb (is_nan (aabb_radius g)).

(** ** ComputeDistance: the data members and the equality operators *)

Module ComputeDistance.
Section Equality.
(** [GJKSolver] and its [operator==] come from narrowphase.h, which is not
    among the sources; [func] is a pointer to a function. *)
Variable GJKSolver : Type.
Variable GJKSolver_eqb : GJKSolver -> GJKSolver -> bool.

Record object : Type := mk {
  o1 : pointer;
  o2 : pointer;
  solver : GJKSolver;
  func : pointer;
  swap_geoms : bool
}.

Definition operator_eq (this other : object) : bool :=
  bool_decide (o1 this = o1 other) && bool_decide (o2 this = o2 other)
  && Bool.eqb (swap_geoms this) (swap_geoms other)
  && GJKSolver_eqb (solver this) (solver other)
  && bool_decide (func this = func other).

Definition operator_ne (this other : object) : bool :=
  negb (operator_eq this other).
End Equality.
End ComputeDistance.

(** ** Concrete data

    Values the statements below are evaluated on. *)

Module Sample.
(** Eigen's [isIdentity(prec)] as Eigen documents it, at the default
    precision [1e-12] of [double]: a diagonal coefficient passes when it is
    approximately 1, any other when it is much smaller than 1. *)
Definition dummy_precision : FCL_REAL := S754_finite false 4951760157141521 (-92).
Definition min (x y : FCL_REAL) : FCL_REAL :=
  match SFcompare y x with Some Lt => y | _ => x end.
Definition isApprox (x y prec : FCL_REAL) : bool :=
  (Real.abs (x - y) <=? min (Real.abs x) (Real.abs y) * prec)%real.
Definition isMuchSmallerThan (x y prec : FCL_REAL) : bool :=
  (Real.abs x <=? Real.abs y * prec)%real.
Definition isIdentity (A : Matrix3f) : bool :=
  let one := Real.of_int 1 in
  let p := dummy_precision in
  isApprox A.(0, 0) one p && isMuchSmallerThan A.(1, 0) one p
  && isMuchSmallerThan A.(2, 0) one p
  && isMuchSmallerThan A.(0, 1) one p && isApprox A.(1, 1) one p
  && isMuchSmallerThan A.(2, 1) one p
  && isMuchSmallerThan A.(0, 2) one p && isMuchSmallerThan A.(1, 2) one p
  && isApprox A.(2, 2) one p.

Definition vec (x y z : Z) : Vec3f :=
  mkVec3f (Real.of_int x) (Real.of_int y) (Real.of_int z).

(** An empty box and the identity transform, for the default-constructed
    members. *)
Definition AABB_default : AABB :=
  mkAABB (Eigen.Vec3f_Constant Real.max)
         (Eigen.Vec3f_Constant (SFopp Real.max)).
Definition Transform3f_default : Transform3f.t :=
  Transform3f.mk Transform3f.Matrix3f_Identity Eigen.Vec3f_Zero.

(** A quarter turn about the z axis. *)
Definition quarter_turn : Matrix3f :=
  mkMatrix3f (vec 0 (-1) 0) (vec 1 0 0) (vec 0 0 1).

(** A cube of half side 1: its [computeLocalAABB] stores the box
    [[-1,1]^3], the centre 0 and the radius [sqrt 3] rounded. *)
Definition cube_computeLocalAABB (g : CollisionGeometry) : CollisionGeometry :=
  {| aabb_center := vec 0 0 0;
     aabb_radius := S754_finite false 7800463371553962 (-52);
     aabb_local := mkAABB (vec (-1) (-1) (-1)) (vec 1 1 1);
     user_data := user_data g;
     cost_density := cost_density g;
     threshold_occupied := threshold_occupied g;
     threshold_free := threshold_free g |}.
Definition cube_class : GeometryClass := plain_class cube_computeLocalAABB.
Definition cube : GeometryObject :=
  mkGeometryObject (CollisionGeometry_new AABB_default None) cube_class.
Definition cube_ready : GeometryObject :=
  mkGeometryObject (cube_computeLocalAABB (members cube)) cube_class.

(** A heap with one cube at address 1 and one at address 2, no call logged. *)
Definition world : World :=
  mkWorld (<[2%positive := cube_ready]> {[1%positive := cube]}) [].

(** The mass properties of a solid cube of half side 1 centred at the
    origin: volume 8 and inertia [16/3] (rounded) about each axis. *)
Definition solid_cube_class : GeometryClass :=
  let I := S754_finite false 6004799503160661 (-50) in
  let O := Real.of_int 0 in
  {| override_getObjectType := Some (fun _ => OT_GEOM);
     override_getNodeType := Some (fun _ => GEOM_BOX);
     override_computeLocalAABB := cube_computeLocalAABB;
     override_computeCOM := Some (fun _ => Eigen.Vec3f_Zero);
     override_computeMomentofInertia :=
       Some (fun _ => Eigen.comma_init I O O O I O O O I);
     override_computeVolume := Some (fun _ => Real.of_int 8);
     override_computeMomentofInertiaRelatedToCOM := None |}.

(** An object on the cube at address 2, moved by (5, 0, 0), with a bound
    that was never computed; the same object turned by a quarter; and an
    object with no geometry. *)
Definition shifted : CollisionObject.object :=
  CollisionObject.mk (Some 2%positive)
    (Transform3f.mk Transform3f.Matrix3f_Identity (vec 5 0 0)) AABB_default None.
Definition turned : CollisionObject.object :=
  CollisionObject.mk (Some 2%positive)
    (Transform3f.mk quarter_turn (vec 5 0 0)) AABB_default None.
Definition empty_handed : CollisionObject.object :=
  CollisionObject.mk None Transform3f_default AABB_default None.

(** A class whose mass properties describe an unbounded region: the
    inertia about the origin is the identity matrix, the volume is
    infinite and the centre of mass is inherited. *)
Definition unbounded_class : GeometryClass :=
  {| override_getObjectType := None;
     override_getNodeType := None;
     override_computeLocalAABB := cube_computeLocalAABB;
     override_computeCOM := None;
     override_computeMomentofInertia := Some (fun _ => Transform3f.Matrix3f_Identity);
     override_computeVolume := Some (fun _ => S754_infinity false);
     override_computeMomentofInertiaRelatedToCOM := None |}.

(** A geometry that is at once occupied and free: the free threshold is
    above the occupied threshold. *)
Definition both_occupied_and_free : CollisionGeometry :=
  {| aabb_center := vec 0 0 0;
     aabb_radius := Real.of_int 1;
     aabb_local := AABB_default;
     user_data := None;
     cost_density := Real.of_int 1;
     threshold_occupied := Real.of_int 0;
     threshold_free := Real.of_int 2 |}.

(** A request that holds a cached guess, a result that holds the guess to
    cache, and a const-request [distance] that finds the objects 3 apart. *)
Definition Request : Type := Vec3f.
Definition Result : Type := Vec3f.
Definition updateGuess (request : Request) (result : Result) : Request := result.
Definition three_apart (o1 o2 : pointer) (request : Request) (result : Result)
    : M unit (FCL_REAL * Result) :=
  ret (Real.of_int 3, vec 1 0 0).

(** Boxes compared corner by corner. *)
Definition AABB_eqb (a b : AABB) : bool :=
  Vec3f_eqb (min_ a) (min_ b) && Vec3f_eqb (max_ a) (max_ b).

(** A turn by [1e-13] radian about the z axis: the cosine rounds to 1 and
    the sine to [1e-13]. The matrix is not the identity matrix. *)
Definition tiny_turn : Matrix3f :=
  let s := S754_finite false 7922816251426434 (-96) in
  let ms := S754_finite true 7922816251426434 (-96) in
  mkMatrix3f (mkVec3f (Real.of_int 1) ms (Real.of_int 0))
             (mkVec3f s (Real.of_int 1) (Real.of_int 0))
             (vec 0 0 1).

(** The object on the cube at address 2, turned by that much and moved by
    (5, 0, 0). *)
Definition nearly_shifted : CollisionObject.object :=
  CollisionObject.mk (Some 2%positive)
    (Transform3f.mk tiny_turn (vec 5 0 0)) AABB_default None.

(** A cube of half side 1 about (1, 2, 3), alone on a heap at address 3, and
    an object on it turned by a quarter and moved by (5, 0, 0). *)
Definition offset_cube_computeLocalAABB (g : CollisionGeometry) : CollisionGeometry :=
  {| aabb_center := vec 1 2 3;
     aabb_radius := S754_finite false 7800463371553962 (-52);
     aabb_local := mkAABB (vec 0 1 2) (vec 2 3 4);
     user_data := user_data g;
     cost_density := cost_density g;
     threshold_occupied := threshold_occupied g;
     threshold_free := threshold_free g |}.
Definition offset_cube_ready : GeometryObject :=
  mkGeometryObject
    (offset_cube_computeLocalAABB (CollisionGeometry_new AABB_default None))
    (plain_class offset_cube_computeLocalAABB).
Definition offset_world : World :=
  mkWorld {[3%positive := offset_cube_ready]} [].
Definition turned_offset : CollisionObject.object :=
  CollisionObject.mk (Some 3%positive)
    (Transform3f.mk quarter_turn (vec 5 0 0)) AABB_default None.

(** A class that overrides both tag functions and no mass-property
    function. *)
Definition tagged_class : GeometryClass :=
  {| override_getObjectType := Some (fun _ => OT_GEOM);
     override_getNodeType := Some (fun _ => GEOM_PLANE);
     override_computeLocalAABB := cube_computeLocalAABB;
     override_computeCOM := None;
     override_computeMomentofInertia := None;
     override_computeVolume := None;
     override_computeMomentofInertiaRelatedToCOM := None |}.
End Sample.

(** ** Comparing scalars

    Two scalars are the same up to the sign of zero when they are identical
    or are both zeros. *)
Definition same_up_to_zero_sign (x y : FCL_REAL) : Prop :=
  x = y \/ (Real.is_zero x = true /\ Real.is_zero y = true).

(** * Properties *)

(** ** Scalars *)

Lemma of_int_0 : Real.of_int 0 = S754_zero false.
Proof. reflexivity. Qed.

Lemma of_int_1 : Real.of_int 1 = S754_finite false 4503599627370496 (-52).
Proof. reflexivity. Qed.

Lemma of_int_m1 : Real.of_int (-1) = S754_finite true 4503599627370496 (-52).
Proof. reflexivity. Qed.

Lemma max_value : Real.max = S754_finite false 9007199254740991 971.
Proof. reflexivity. Qed.

Lemma compare_cont_Eq (p q : positive) : Pos.compare_cont Eq p q = (p ?= q)%positive.
Proof. reflexivity. Qed.

Lemma SFcompare_Eq_sym (x y : FCL_REAL) :
  SFcompare x y = Some Eq -> SFcompare y x = Some Eq.
Proof.
  assert (Hpos : forall p q : positive,
             Pos.compare_cont Eq p q = Eq -> Pos.compare_cont Eq q p = Eq).
  { intros p q H. apply Pos.compare_eq in H. subst. apply Pos.compare_refl. }
  destruct x as [sx|sx| |sx mx ex], y as [sy|sy| |sy my ey]; simpl;
    try discriminate; try reflexivity;
    try (destruct sx, sy; (discriminate || reflexivity));
    try (destruct sx; (discriminate || reflexivity));
    try (destruct sy; (discriminate || reflexivity)).
  destruct sx, sy; try discriminate;
    destruct (Z.compare_spec ex ey) as [->| |]; try discriminate;
    rewrite Z.compare_refl; intros [= H];
    [ apply (f_equal CompOpp) in H; rewrite CompOpp_involutive in H; simpl in H | ];
    rewrite (Hpos _ _ H); reflexivity.
Qed.

Lemma eqb_geb (x y : FCL_REAL) : (x == y)%real = true -> (x >=? y)%real = true.
Proof. unfold Real.eqb, Real.geb. destruct (SFcompare x y) as [[]|]; auto. Qed.

Lemma eqb_leb (x y : FCL_REAL) : (x == y)%real = true -> (x <=? y)%real = true.
Proof. unfold Real.eqb, Real.leb. destruct (SFcompare x y) as [[]|]; auto. Qed.

Lemma eqb_zero (x : FCL_REAL) :
  (x == Real.of_int 0)%real = true <-> Real.is_zero x = true.
Proof.
  rewrite of_int_0. unfold Real.eqb, Real.is_zero.
  destruct x as [s|[]| |[] m e]; simpl; split; intros H;
    first [reflexivity | discriminate H].
Qed.

Lemma digits2_pos_bound (m : positive) : (Z.pos m < 2 ^ Z.pos (digits2_pos m))%Z.
Proof.
  induction m as [m IH|m IH|]; simpl digits2_pos;
    rewrite ?Pos2Z.inj_succ, ?Z.pow_succ_r by lia; lia.
Qed.

(** [Real.max] is the largest value of the format that is not an infinity. *)
Lemma max_is_largest (x : FCL_REAL) :
  Real.valid x = true -> Real.is_finite x = true -> (x <=? Real.max)%real = true.
Proof.
  rewrite max_value.
  destruct x as [s|s| |s m e]; try discriminate; [reflexivity|].
  intros Hv _. destruct s; [reflexivity|].
  unfold Real.valid, valid_binary, bounded in Hv.
  apply andb_prop in Hv as [Hc He].
  unfold canonical_mantissa, fexp, emin in Hc.
  apply Z.eqb_eq in Hc. apply Z.leb_le in He.
  unfold Real.prec, Real.emax in Hc, He.
  unfold Real.leb; cbn [SFcompare].
  destruct (Z.compare_spec e 971) as [Heq| |]; [|reflexivity|lia].
  subst e. rewrite compare_cont_Eq.
  assert (Z.pos (digits2_pos m) = 53%Z) as Hd by lia.
  pose proof (digits2_pos_bound m) as Hm.
  rewrite Hd in Hm.
  destruct (Pos.compare_spec m 9007199254740991) as [?|?|Hgt]; try reflexivity.
  exfalso. change (2 ^ 53)%Z with 9007199254740992%Z in Hm. lia.
Qed.

(** ** Occupancy *)

(** C5. [isOccupied] holds exactly when [cost_density >= threshold_occupied]
    and [isFree] exactly when [cost_density <= threshold_free]; a density
    equal to a threshold satisfies the predicate of that threshold; and for
    some geometry both predicates hold, the thresholds being unordered. *)
Theorem C5_occupancy_thresholds :
  (forall g, isOccupied g = true <->
             (cost_density g >=? threshold_occupied g)%real = true) /\
  (forall g, isFree g = true <->
             (cost_density g <=? threshold_free g)%real = true) /\
  (forall g, (cost_density g == threshold_occupied g)%real = true ->
             isOccupied g = true) /\
  (forall g, (cost_density g == threshold_free g)%real = true ->
             isFree g = true) /\
  (exists g, isOccupied g = true /\ isFree g = true /\
             (threshold_free g <=? threshold_occupied g)%real = false).
Proof.
  repeat split; try (unfold isOccupied, isFree; tauto).
  - intros g. apply eqb_geb.
  - intros g. apply eqb_leb.
  - exists Sample.both_occupied_and_free. repeat split; reflexivity.
Qed.

(** The comparisons are those of IEEE 754: a NaN density is neither
    occupied nor free. *)
Lemma nan_density_is_uncertain (g : CollisionGeometry) :
  cost_density g = Real.NAN -> isOccupied g = false /\ isFree g = false.
Proof. unfold isOccupied, isFree. intros ->. split; reflexivity. Qed.

(** C10. A default-constructed geometry has density 1, occupied threshold 1
    and free threshold 0, so it is occupied and not free; its radius is -1
    and each coordinate of its centre is the largest finite scalar. *)
Theorem C10_default_constructed_geometry (aabb0 : AABB) (ud : void_ptr) :
  let g := CollisionGeometry_new aabb0 ud in
  cost_density g = S754_finite false 4503599627370496 (-52) /\
  threshold_occupied g = S754_finite false 4503599627370496 (-52) /\
  threshold_free g = S754_zero false /\
  isOccupied g = true /\
  isFree g = false /\
  aabb_radius g = S754_finite true 4503599627370496 (-52) /\
  aabb_center g = Eigen.Vec3f_Constant (S754_finite false 9007199254740991 971) /\
  (forall i x, Real.valid x = true -> Real.is_finite x = true ->
               (x <=? (aabb_center g).[i])%real = true).
Proof.
  repeat split; try reflexivity.
  intros i x Hv Hf.
  replace ((aabb_center (CollisionGeometry_new aabb0 ud)).[i]) with Real.max
    by (destruct i as [|[|i]]; reflexivity).
  by apply max_is_largest.
Qed.

(** ** Mass properties *)

(** C9. For a class that overrides none of the four mass-property
    functions, whatever else it overrides, the centre of mass is the zero
    vector, the volume is zero, every entry of the inertia about the origin
    is NaN, and so is every entry of the inertia about the centre of mass:
    the computation returns, with NaN in each entry. *)
Theorem C9_unsupported_mass_properties (cls : GeometryClass) (g : CollisionGeometry) :
  override_computeCOM cls = None ->
  override_computeMomentofInertia cls = None ->
  override_computeVolume cls = None ->
  override_computeMomentofInertiaRelatedToCOM cls = None ->
  computeCOM cls g = mkVec3f (S754_zero false) (S754_zero false) (S754_zero false) /\
  computeVolume cls g = S754_zero false /\
  (forall i j, (computeMomentofInertia cls g).(i, j) = S754_nan) /\
  (forall i j, (computeMomentofInertiaRelatedToCOM cls g).(i, j) = S754_nan).
Proof.
  intros Hcom Hin Hvol Hrel.
  unfold computeMomentofInertiaRelatedToCOM,
    base_computeMomentofInertiaRelatedToCOM, computeCOM, computeVolume,
    computeMomentofInertia.
  rewrite Hcom, Hin, Hvol, Hrel. unfold dispatch.
  split; [reflexivity|]. split; [reflexivity|]. split.
  - intros [|[|i]] [|[|j]]; reflexivity.
  - intros [|[|i]] [|[|j]]; reflexivity.
Qed.

(** C9 at a class that overrides both tag functions and no mass-property
    function. *)
Lemma C9_unsupported_mass_properties_witness :
  let cls := Sample.tagged_class in
  let g := members Sample.cube in
  getNodeType cls g = GEOM_PLANE /\
  computeCOM cls g = mkVec3f (S754_zero false) (S754_zero false) (S754_zero false) /\
  computeVolume cls g = S754_zero false /\
  (forall i j, (computeMomentofInertia cls g).(i, j) = S754_nan) /\
  (forall i j, (computeMomentofInertiaRelatedToCOM cls g).(i, j) = S754_nan).
Proof.
  split; [reflexivity|].
  exact (C9_unsupported_mass_properties Sample.tagged_class (members Sample.cube)
           eq_refl eq_refl eq_refl eq_refl).
Defined.

(** A NaN in the inertia about the origin stays in the same entry of the
    inertia about the centre of mass, whatever the centre of mass and the
    volume are. *)
Lemma nan_entry_propagates (cls : GeometryClass) (g : CollisionGeometry) (i j : nat) :
  (computeMomentofInertia cls g).(i, j) = S754_nan ->
  (base_computeMomentofInertiaRelatedToCOM cls g).(i, j) = S754_nan.
Proof.
  unfold base_computeMomentofInertiaRelatedToCOM.
  destruct i as [|[|i]], j as [|[|j]]; cbn -[Real.add Real.sub Real.mul];
    intros ->; reflexivity.
Qed.

(** With a centre of mass at the origin and a finite volume, the shift of
    one entry adds or subtracts a zero. *)
Lemma shift_by_zero (c V a b : FCL_REAL) :
  Real.is_finite V = true -> Real.is_zero a = true -> Real.is_zero b = true ->
  same_up_to_zero_sign (c + V * a * b)%real c /\
  same_up_to_zero_sign (c - V * (a * a + b * b))%real c.
Proof.
  intros HV Ha Hb.
  destruct a as [sa| | |]; try discriminate Ha.
  destruct b as [sb| | |]; try discriminate Hb.
  destruct V as [sv| | |sv mv ev]; try discriminate HV;
    destruct c as [sc|sc| |sc mc ec];
    unfold same_up_to_zero_sign;
    destruct sa, sb, sv; try destruct sc; cbn; auto.
Qed.

(** C8, as the code has it. When every coordinate of the centre of mass is a
    zero and the volume is finite, each entry of the default inertia about
    the centre of mass is the entry of the inertia about the origin, up to
    the sign of a zero entry. *)
Theorem C8_parallel_axis_at_origin (cls : GeometryClass) (g : CollisionGeometry) :
  (forall k, ((computeCOM cls g).[k] == Real.of_int 0)%real = true) ->
  Real.is_finite (computeVolume cls g) = true ->
  forall i j,
    same_up_to_zero_sign
      ((base_computeMomentofInertiaRelatedToCOM cls g).(i, j))
      ((computeMomentofInertia cls g).(i, j)).
Proof.
  intros Hcom HV i j.
  assert (Hz : forall k, Real.is_zero ((computeCOM cls g).[k]) = true)
    by (intros k; apply eqb_zero, Hcom).
  pose proof (Hz 0%nat) as H0. pose proof (Hz 1%nat) as H1. pose proof (Hz 2%nat) as H2.
  unfold base_computeMomentofInertiaRelatedToCOM.
  destruct i as [|[|i]], j as [|[|j]]; cbn -[Real.add Real.sub Real.mul Eigen.coeff];
    first [ apply shift_by_zero; assumption
          | apply (shift_by_zero _ _ _ _ HV); assumption ].
Qed.

(** With a centre of mass at the origin and a volume that is an infinity or
    a NaN, the shift of one entry is a NaN. *)
Lemma shift_by_nan (c V a b : FCL_REAL) :
  Real.is_finite V = false -> Real.is_zero a = true -> Real.is_zero b = true ->
  (c + V * a * b)%real = S754_nan /\ (c - V * (a * a + b * b))%real = S754_nan.
Proof.
  intros HV Ha Hb.
  destruct a as [sa| | |]; try discriminate Ha.
  destruct b as [sb| | |]; try discriminate Hb.
  destruct V as [sv|sv| |sv mv ev]; try discriminate HV;
    destruct c as [sc|sc| |sc mc ec]; destruct sa, sb; cbn; auto.
Qed.

(** An infinite or NaN volume turns every entry into NaN, even with the
    centre of mass at the origin. *)
Lemma infinite_volume_gives_nan (cls : GeometryClass) (g : CollisionGeometry) :
  (forall k, ((computeCOM cls g).[k] == Real.of_int 0)%real = true) ->
  Real.is_finite (computeVolume cls g) = false ->
  forall i j, (base_computeMomentofInertiaRelatedToCOM cls g).(i, j) = S754_nan.
Proof.
  intros Hcom HV i j.
  assert (Hz : forall k, Real.is_zero ((computeCOM cls g).[k]) = true)
    by (intros k; apply eqb_zero, Hcom).
  pose proof (Hz 0%nat) as H0. pose proof (Hz 1%nat) as H1. pose proof (Hz 2%nat) as H2.
  unfold base_computeMomentofInertiaRelatedToCOM.
  destruct i as [|[|i]], j as [|[|j]]; cbn -[Real.add Real.sub Real.mul Eigen.coeff];
    first [ apply shift_by_nan; assumption
          | apply (shift_by_nan _ _ _ _ HV); assumption ].
Qed.

(** C8 does not hold as stated. The centre of mass of
    [Sample.unbounded_class] is the origin and its volume is infinite: its
    default inertia about the centre of mass differs from its inertia about
    the origin, whose entry (0, 0) is 1 while that of the former is NaN. *)
Lemma C8_counterexample :
  let cls := Sample.unbounded_class in
  let g := members Sample.cube in
  computeCOM cls g = Eigen.Vec3f_Zero /\
  computeMomentofInertiaRelatedToCOM cls g <> computeMomentofInertia cls g /\
  (computeMomentofInertia cls g).(0, 0) = Real.of_int 1 /\
  (computeMomentofInertiaRelatedToCOM cls g).(0, 0) = Real.NAN /\
  ((computeMomentofInertiaRelatedToCOM cls g).(0, 0)
   == (computeMomentofInertia cls g).(0, 0))%real = false.
Proof.
  cbv zeta. split; [reflexivity|]. split; [|repeat split; reflexivity].
  intros H. apply (f_equal (fun A => A.(0, 0))) in H. discriminate H.
Qed.

(** C8 at the solid cube: the volume is 8, the centre of mass the origin. *)
Lemma C8_parallel_axis_at_origin_witness :
  let cls := Sample.solid_cube_class in
  let g := members Sample.cube in
  Real.is_finite (computeVolume cls g) = true /\
  same_up_to_zero_sign
    ((base_computeMomentofInertiaRelatedToCOM cls g).(0, 0))
    ((computeMomentofInertia cls g).(0, 0)) /\
  same_up_to_zero_sign
    ((base_computeMomentofInertiaRelatedToCOM cls g).(0, 1))
    ((computeMomentofInertia cls g).(0, 1)).
Proof.
  cbv zeta.
  assert (Hcom : forall k, ((computeCOM Sample.solid_cube_class
                               (members Sample.cube)).[k] == Real.of_int 0)%real = true)
    by (intros [|[|k]]; reflexivity).
  assert (HV : Real.is_finite (computeVolume Sample.solid_cube_class
                                 (members Sample.cube)) = true) by reflexivity.
  split; [exact HV|].
  split; apply (C8_parallel_axis_at_origin _ _ Hcom HV).
Defined.

(** ** The monad of member functions *)

Lemma bind_Ok {S A B : Type} (m : M S A) (k : A -> M S B) (w w' : S) (a : A) :
  m w = Ok (a, w') -> bind m k w = k a w'.
Proof. unfold bind. intros ->. reflexivity. Qed.

Lemma bind_Fault {S A B : Type} (m : M S A) (k : A -> M S B) (w : S) :
  m w = Fault -> bind m k w = Fault.
Proof. unfold bind. intros ->. reflexivity. Qed.

Lemma deref_Some (a : loc) (g : GeometryObject) (w : World) :
  heap w !! a = Some g -> deref (Some a) w = Ok (g, w).
Proof. unfold deref. intros ->. reflexivity. Qed.

Lemma deref_null (w : World) : deref None w = Fault.
Proof. reflexivity. Qed.

Lemma call_computeLocalAABB_Some (a : loc) (g : GeometryObject) (w : World) :
  heap w !! a = Some g ->
  call_computeLocalAABB (Some a) w =
    Ok (tt, mkWorld (<[a := with_local_bound g]> (heap w))
                    (a :: computeLocalAABB_calls w)).
Proof. unfold call_computeLocalAABB. intros ->. reflexivity. Qed.

(** ** CollisionObject *)

Section ObjectProperties.
Import CollisionObject.

Variable isIdentity : Matrix3f -> bool.
Variable AABB_default : AABB.
Variable Transform3f_default : Transform3f.t.

Local Abbreviation computeAABB := (CollisionObject.computeAABB isIdentity).
Local Abbreviation world_bound := (CollisionObject.world_bound isIdentity).
Local Abbreviation init := (CollisionObject.init isIdentity).
Local Abbreviation new := (CollisionObject.new isIdentity AABB_default Transform3f_default).
Local Abbreviation new_tf := (CollisionObject.new_tf isIdentity AABB_default).
Local Abbreviation new_RT := (CollisionObject.new_RT isIdentity AABB_default).
Local Abbreviation setCollisionGeometry := (CollisionObject.setCollisionGeometry isIdentity).

Lemma computeAABB_Some (o : object) (a : loc) (g : GeometryObject) (w : World) :
  cgeom o = Some a -> heap w !! a = Some g ->
  computeAABB o w = Ok (set_aabb (world_bound (t o) (members g)) o, w).
Proof.
  intros Hc Hg. unfold CollisionObject.computeAABB, CollisionObject.world_bound.
  rewrite Hc.
  destruct (isIdentity (Transform3f.getRotation (t o))).
  - rewrite (bind_Ok _ _ _ _ _ (deref_Some a g w Hg)). reflexivity.
  - rewrite (bind_Ok _ _ _ _ _ (deref_Some a g w Hg)).
    rewrite (bind_Ok _ _ _ _ _ (deref_Some a g w Hg)). reflexivity.
Qed.

Lemma computeAABB_null (o : object) (w : World) :
  cgeom o = None -> computeAABB o w = Fault.
Proof.
  intros Hc. unfold CollisionObject.computeAABB. rewrite Hc.
  destruct (isIdentity _); reflexivity.
Qed.

Lemma after_local_bound_lookup flag a g w :
  heap w !! a = Some g ->
  heap (after_local_bound flag a g w) !! a =
    Some (if flag then with_local_bound g else g).
Proof.
  intros Hg. destruct flag; simpl; [apply lookup_insert_eq | exact Hg].
Qed.

Lemma init_Some (flag : bool) (o : object) (a : loc) (g : GeometryObject) (w : World) :
  cgeom o = Some a -> heap w !! a = Some g ->
  init flag o w =
    Ok (set_aabb (world_bound (t o)
                    (members (if flag then with_local_bound g else g))) o,
        after_local_bound flag a g w).
Proof.
  intros Hc Hg. unfold CollisionObject.init. rewrite Hc.
  assert (Hstep : (if flag then call_computeLocalAABB (Some a) else ret tt) w
                  = Ok (tt, after_local_bound flag a g w)).
  { destruct flag; simpl; [by apply call_computeLocalAABB_Some | reflexivity]. }
  rewrite (bind_Ok _ _ _ _ _ Hstep).
  apply (computeAABB_Some o a (if flag then with_local_bound g else g));
    [exact Hc | by apply after_local_bound_lookup].
Qed.

Lemma init_null (flag : bool) (o : object) (w : World) :
  cgeom o = None -> init flag o w = Ok (o, w).
Proof. intros Hc. unfold CollisionObject.init. rewrite Hc. reflexivity. Qed.

(** C1. The rotation, translation and transform setters leave the cached
    box as it is, and so do [setIdentityTransform] and [setUserData]:
    [getAABB] returns the box from before the call. A later [computeAABB]
    stores the box of the new transform. The constructors and
    [setCollisionGeometry], given a geometry, end with the box recomputed
    from the geometry as [init] leaves it. *)
Theorem C1_setters_keep_cached_bound :
  (forall o R, getAABB (setRotation R o) = getAABB o) /\
  (forall o T, getAABB (setTranslation T o) = getAABB o) /\
  (forall o R T, getAABB (setTransform_RT R T o) = getAABB o) /\
  (forall o tf, getAABB (setTransform tf o) = getAABB o) /\
  (forall o, getAABB (setIdentityTransform o) = getAABB o) /\
  (forall o data, getAABB (setUserData data o) = getAABB o) /\
  (forall o tf a g w,
      cgeom o = Some a -> heap w !! a = Some g ->
      exists o', computeAABB (setTransform tf o) w = Ok (o', w) /\
                 getAABB o' = world_bound tf (members g)) /\
  (forall a g w flag,
      heap w !! a = Some g ->
      exists o' w' g',
        new (Some a) flag w = Ok (o', w') /\ heap w' !! a = Some g' /\
        getAABB o' = world_bound Transform3f_default (members g')) /\
  (forall a g w flag tf,
      heap w !! a = Some g ->
      exists o' w' g',
        new_tf (Some a) tf flag w = Ok (o', w') /\ heap w' !! a = Some g' /\
        getAABB o' = world_bound tf (members g')) /\
  (forall a g w flag R T,
      heap w !! a = Some g ->
      exists o' w' g',
        new_RT (Some a) R T flag w = Ok (o', w') /\ heap w' !! a = Some g' /\
        getAABB o' = world_bound (Transform3f.mk R T) (members g')) /\
  (forall o a g w flag,
      Some a <> cgeom o -> heap w !! a = Some g ->
      exists o' w' g',
        setCollisionGeometry (Some a) flag o w = Ok (o', w') /\
        heap w' !! a = Some g' /\
        getAABB o' = world_bound (t o) (members g')).
Proof.
  repeat match goal with |- _ /\ _ => split end; try reflexivity.
  - intros o tf a g w Hc Hg. eexists. split.
    + by apply (computeAABB_Some (setTransform tf o) a g w).
    + reflexivity.
  - intros a g w flag Hg. do 3 eexists. split; [|split].
    + by apply (init_Some flag _ a g w).
    + by apply after_local_bound_lookup.
    + reflexivity.
  - intros a g w flag tf Hg. do 3 eexists. split; [|split].
    + by apply (init_Some flag _ a g w).
    + by apply after_local_bound_lookup.
    + reflexivity.
  - intros a g w flag R T Hg. do 3 eexists. split; [|split].
    + by apply (init_Some flag _ a g w).
    + by apply after_local_bound_lookup.
    + reflexivity.
  - intros o a g w flag Hne Hg. do 3 eexists. split; [|split].
    + unfold CollisionObject.setCollisionGeometry.
      rewrite bool_decide_eq_true_2 by exact Hne.
      by apply (init_Some flag _ a g w).
    + by apply after_local_bound_lookup.
    + reflexivity.
Qed.

(** C2. When the rotation passes the identity test, [computeAABB] stores
    the local box of the geometry with both corners moved by the
    translation, [lo + T] and [hi + T], and changes nothing else. *)
Theorem C2_identity_rotation_translates_local_box
    (o : object) (a : loc) (g : GeometryObject) (w : World) :
  isIdentity (getRotation o) = true ->
  cgeom o = Some a -> heap w !! a = Some g ->
  let lo := min_ (aabb_local (members g)) in
  let hi := max_ (aabb_local (members g)) in
  let T := getTranslation o in
  exists o',
    computeAABB o w = Ok (o', w) /\
    min_ (getAABB o') = mkVec3f (v0 lo + v0 T) (v1 lo + v1 T) (v2 lo + v2 T) /\
    max_ (getAABB o') = mkVec3f (v0 hi + v0 T) (v1 hi + v1 T) (v2 hi + v2 T) /\
    cgeom o' = cgeom o /\ t o' = t o /\ user_data o' = user_data o.
Proof.
  intros Hid Hc Hg lo hi T. eexists. split.
  - by apply (computeAABB_Some o a g w).
  - unfold CollisionObject.world_bound.
    unfold CollisionObject.getRotation in Hid. rewrite Hid.
    repeat split.
Qed.

(** C3, as the code has it. When the rotation fails the identity test
    [isIdentity()], [computeAABB] stores the box of the sphere whose centre
    is [R * aabb_center + T] and whose radius is [aabb_radius]: the centre
    minus and plus the radius in each coordinate. The test is Eigen's, and
    approximate: a rotation that is not the identity can pass it. *)
Theorem C3_rotated_bound_is_sphere_box
    (o : object) (a : loc) (g : GeometryObject) (w : World) :
  isIdentity (getRotation o) = false ->
  cgeom o = Some a -> heap w !! a = Some g ->
  let c := Eigen.vadd (Transform3f.mulv (getRotation o) (aabb_center (members g)))
                      (getTranslation o) in
  let r := aabb_radius (members g) in
  exists o',
    computeAABB o w = Ok (o', w) /\
    min_ (getAABB o') = mkVec3f (v0 c - r) (v1 c - r) (v2 c - r) /\
    max_ (getAABB o') = mkVec3f (v0 c + r) (v1 c + r) (v2 c + r) /\
    cgeom o' = cgeom o /\ t o' = t o /\ user_data o' = user_data o.
Proof.
  intros Hid Hc Hg c r. eexists. split.
  - by apply (computeAABB_Some o a g w).
  - unfold CollisionObject.world_bound.
    unfold CollisionObject.getRotation in Hid. rewrite Hid.
    repeat split.
Qed.

(** C4, as the code has it. Given no geometry, each constructor returns an
    object that holds the null pointer, its transform and the
    default-constructed box, and [setCollisionGeometry] on an object that
    has a geometry stores the null pointer and keeps the cached box; the
    world, with its log of [computeLocalAABB] calls, is as before. None of
    them faults. *)
Theorem C4_null_geometry_skips_bounds :
  (forall flag w,
      new None flag w =
        Ok (mk None Transform3f_default AABB_default None, w)) /\
  (forall tf flag w,
      new_tf None tf flag w = Ok (mk None tf AABB_default None, w)) /\
  (forall R T flag w,
      new_RT None R T flag w =
        Ok (mk None (Transform3f.mk R T) AABB_default None, w)) /\
  (forall o flag w,
      cgeom o <> None ->
      setCollisionGeometry None flag o w = Ok (set_cgeom None o, w)).
Proof.
  repeat split; try reflexivity.
  intros o flag w Hne. unfold CollisionObject.setCollisionGeometry.
  rewrite bool_decide_eq_true_2 by congruence. reflexivity.
Qed.

(** C6, as the code has it. [setCollisionGeometry] with the pointer the
    object already holds returns the object and the world unchanged. With
    another pointer to a geometry it stores that pointer and the box
    recomputed from the geometry, after one logged [computeLocalAABB] on it
    when the flag is set and with the world unchanged when it is not. With
    another pointer that is null it stores the pointer and recomputes
    nothing. *)
Theorem C6_setCollisionGeometry :
  (forall o flag w, setCollisionGeometry (cgeom o) flag o w = Ok (o, w)) /\
  (forall o a g w,
      Some a <> cgeom o -> heap w !! a = Some g ->
      setCollisionGeometry (Some a) true o w =
        Ok (mk (Some a) (t o)
               (world_bound (t o) (members (with_local_bound g))) (user_data o),
            mkWorld (<[a := with_local_bound g]> (heap w))
                    (a :: computeLocalAABB_calls w))) /\
  (forall o a g w,
      Some a <> cgeom o -> heap w !! a = Some g ->
      setCollisionGeometry (Some a) false o w =
        Ok (mk (Some a) (t o) (world_bound (t o) (members g)) (user_data o), w)) /\
  (forall o flag w,
      None <> cgeom o ->
      setCollisionGeometry None flag o w =
        Ok (mk None (t o) (aabb o) (user_data o), w)).
Proof.
  repeat split.
  - intros o flag w. unfold CollisionObject.setCollisionGeometry.
    rewrite bool_decide_eq_false_2 by auto. reflexivity.
  - intros o a g w Hne Hg. unfold CollisionObject.setCollisionGeometry.
    rewrite bool_decide_eq_true_2 by exact Hne.
    by rewrite (init_Some true _ a g w).
  - intros o a g w Hne Hg. unfold CollisionObject.setCollisionGeometry.
    rewrite bool_decide_eq_true_2 by exact Hne.
    by rewrite (init_Some false _ a g w).
  - intros o flag w Hne. unfold CollisionObject.setCollisionGeometry.
    rewrite bool_decide_eq_true_2 by exact Hne. reflexivity.
Qed.
End ObjectProperties.

Section ObjectExamples.
Import CollisionObject.

(** The exact identity passes Eigen's test and a quarter turn fails it. *)
Lemma isIdentity_Identity : Sample.isIdentity Transform3f.Matrix3f_Identity = true.
Proof. vm_compute. reflexivity. Qed.

Lemma isIdentity_quarter_turn : Sample.isIdentity Sample.quarter_turn = false.
Proof. vm_compute. reflexivity. Qed.

Lemma world_lookup_2 : heap Sample.world !! 2%positive = Some Sample.cube_ready.
Proof. vm_compute. reflexivity. Qed.

Lemma world_lookup_1 : heap Sample.world !! 1%positive = Some Sample.cube.
Proof. vm_compute. reflexivity. Qed.

(** C2 at the cube of address 2 moved by (5, 0, 0). *)
Lemma C2_identity_rotation_translates_local_box_witness :
let o := Sample.shifted in
let g := Sample.cube_ready in
let lo := min_ (aabb_local (members g)) in
let hi := max_ (aabb_local (members g)) in
let T := getTranslation o in
exists o',
  computeAABB Sample.isIdentity o Sample.world = Ok (o', Sample.world) /\
  min_ (getAABB o') = mkVec3f (v0 lo + v0 T) (v1 lo + v1 T) (v2 lo + v2 T) /\
  max_ (getAABB o') = mkVec3f (v0 hi + v0 T) (v1 hi + v1 T) (v2 hi + v2 T) /\
  cgeom o' = cgeom o /\ t o' = t o /\ user_data o' = user_data o.
Proof.
exact (C2_identity_rotation_translates_local_box Sample.isIdentity
         Sample.shifted 2%positive Sample.cube_ready Sample.world
         isIdentity_Identity eq_refl world_lookup_2).
Defined.

(** The cube moved by (5, 0, 0) is bounded by [4,6] x [-1,1] x [-1,1]. *)
Example shifted_cube_bound :
computeAABB Sample.isIdentity Sample.shifted Sample.world =
  Ok (set_aabb (mkAABB (Sample.vec 4 (-1) (-1)) (Sample.vec 6 1 1)) Sample.shifted,
      Sample.world).
Proof. vm_compute. reflexivity. Qed.

Lemma offset_world_lookup :
  heap Sample.offset_world !! 3%positive = Some Sample.offset_cube_ready.
Proof. vm_compute. reflexivity. Qed.

(** C3 at the cube about (1, 2, 3), turned by a quarter and moved by
    (5, 0, 0): the centre of the sphere is (3, 1, 3). *)
Lemma C3_rotated_bound_is_sphere_box_witness :
  let o := Sample.turned_offset in
  let g := Sample.offset_cube_ready in
  let c := Eigen.vadd (Transform3f.mulv (getRotation o) (aabb_center (members g)))
                      (getTranslation o) in
  let r := aabb_radius (members g) in
  c = Sample.vec 3 1 3 /\
  exists o',
    computeAABB Sample.isIdentity o Sample.offset_world = Ok (o', Sample.offset_world) /\
    min_ (getAABB o') = mkVec3f (v0 c - r) (v1 c - r) (v2 c - r) /\
    max_ (getAABB o') = mkVec3f (v0 c + r) (v1 c + r) (v2 c + r) /\
    cgeom o' = cgeom o /\ t o' = t o /\ user_data o' = user_data o.
Proof.
  split; [vm_compute; reflexivity|].
  exact (C3_rotated_bound_is_sphere_box Sample.isIdentity
           Sample.turned_offset 3%positive Sample.offset_cube_ready
           Sample.offset_world isIdentity_quarter_turn eq_refl
           offset_world_lookup).
Defined.

(** C3 does not hold as stated. The rotation of [Sample.nearly_shifted], a
    turn by [1e-13] radian, is not the identity, yet it passes Eigen's
    identity test: [computeAABB] stores the local box moved by the
    translation, [4,6] x [-1,1] x [-1,1], and not the box of the sphere
    about the transformed centre. *)
Lemma C3_counterexample :
  let o := Sample.nearly_shifted in
  let g := Sample.cube_ready in
  let c := Eigen.vadd (Transform3f.mulv (getRotation o) (aabb_center (members g)))
                      (getTranslation o) in
  let r := aabb_radius (members g) in
  getRotation o <> Transform3f.Matrix3f_Identity /\
  Sample.isIdentity (getRotation o) = true /\
  exists o',
    computeAABB Sample.isIdentity o Sample.world = Ok (o', Sample.world) /\
    getAABB o' = mkAABB (Sample.vec 4 (-1) (-1)) (Sample.vec 6 1 1) /\
    min_ (getAABB o') <> mkVec3f (v0 c - r) (v1 c - r) (v2 c - r) /\
    max_ (getAABB o') <> mkVec3f (v0 c + r) (v1 c + r) (v2 c + r).
Proof.
  cbv zeta. split; [|split].
  - intros H. vm_compute in H. discriminate H.
  - vm_compute. reflexivity.
  - exists (set_aabb (mkAABB (Sample.vec 4 (-1) (-1)) (Sample.vec 6 1 1))
              Sample.nearly_shifted).
    split; [vm_compute; reflexivity|]. split; [reflexivity|].
    split; intros H; vm_compute in H; discriminate H.
Qed.

(** The cube turned by a quarter and moved by (5, 0, 0): the box of the
  sphere of radius [sqrt 3] about (5, 0, 0), looser than the cube's own
  box. *)
Example turned_cube_bound :
exists o',
  computeAABB Sample.isIdentity Sample.turned Sample.world = Ok (o', Sample.world) /\
  v0 (min_ (getAABB o')) = S754_finite false 7358767382649259 (-51) /\
  v0 (max_ (getAABB o')) = S754_finite false 7579615377101610 (-50) /\
  (v0 (min_ (getAABB o')) <=? Real.of_int 4)%real = true /\
  (Real.of_int 6 <=? v0 (max_ (getAABB o')))%real = true.
Proof. eexists. split; [vm_compute; reflexivity|]. vm_compute. repeat split. Qed.

(** After [setTransform] the cached box is the one from before, and differs
  from the box [computeAABB] then stores. *)
Example stale_bound_after_setTransform :
let o := set_aabb (mkAABB (Sample.vec 4 (-1) (-1)) (Sample.vec 6 1 1)) Sample.shifted in
let o1 := setTransform (Transform3f.mk Transform3f.Matrix3f_Identity (Sample.vec 0 7 0)) o in
computeAABB Sample.isIdentity o Sample.world = Ok (o, Sample.world) /\
getAABB o1 = mkAABB (Sample.vec 4 (-1) (-1)) (Sample.vec 6 1 1) /\
computeAABB Sample.isIdentity o1 Sample.world =
  Ok (set_aabb (mkAABB (Sample.vec (-1) 6 (-1)) (Sample.vec 1 8 1)) o1, Sample.world).
Proof. cbv zeta. repeat split; vm_compute; reflexivity. Qed.

(** C4 does not hold as stated: a constructor given the null pointer
  and [setCollisionGeometry] given the null pointer on an object that has
  a geometry return normally, with no bound computed and nothing logged. *)
Lemma C4_counterexample :
new Sample.isIdentity Sample.AABB_default Sample.Transform3f_default
    None true Sample.world
  = Ok (Sample.empty_handed, Sample.world) /\
new Sample.isIdentity Sample.AABB_default Sample.Transform3f_default
    None true Sample.world <> Fault /\
setCollisionGeometry Sample.isIdentity None true Sample.shifted Sample.world
  = Ok (set_cgeom None Sample.shifted, Sample.world) /\
setCollisionGeometry Sample.isIdentity None true Sample.shifted Sample.world
  <> Fault.
Proof.
assert (H1 : new Sample.isIdentity Sample.AABB_default Sample.Transform3f_default
                 None true Sample.world = Ok (Sample.empty_handed, Sample.world))
  by reflexivity.
assert (H2 : setCollisionGeometry Sample.isIdentity None true Sample.shifted
               Sample.world = Ok (set_cgeom None Sample.shifted, Sample.world))
  by reflexivity.
repeat split; try assumption.
- rewrite H1. discriminate.
- rewrite H2. discriminate.
Qed.

(** C6 does not hold as stated: given the null pointer, which differs
  from the pointer the object holds, [setCollisionGeometry] replaces the
  pointer and recomputes neither bound: the cached box is the one of the
  geometry it held and no [computeLocalAABB] is logged. *)
Lemma C6_counterexample :
let o := set_aabb (mkAABB (Sample.vec 4 (-1) (-1)) (Sample.vec 6 1 1)) Sample.shifted in
exists o' w',
  setCollisionGeometry Sample.isIdentity None true o Sample.world = Ok (o', w') /\
  None <> cgeom o /\
  cgeom o' = None /\
  getAABB o' = getAABB o /\
  computeLocalAABB_calls w' = computeLocalAABB_calls Sample.world /\
  computeAABB Sample.isIdentity o' w' = Fault.
Proof.
cbv zeta.
exists (set_cgeom None
          (set_aabb (mkAABB (Sample.vec 4 (-1) (-1)) (Sample.vec 6 1 1))
                    Sample.shifted)), Sample.world.
repeat split; try reflexivity. discriminate.
Qed.

(** [setCollisionGeometry] with a new geometry and the flag set: the cube at
  address 1 gets its local bound, one call is logged and the object's box
  is the cube's moved by (5, 0, 0). *)
Example setCollisionGeometry_new_geometry :
setCollisionGeometry Sample.isIdentity (Some 1%positive) true
  Sample.shifted Sample.world =
Ok (mk (Some 1%positive) (t Sample.shifted)
       (mkAABB (Sample.vec 4 (-1) (-1)) (Sample.vec 6 1 1)) None,
    mkWorld (<[1%positive := Sample.cube_ready]> (heap Sample.world))
            [1%positive]).
Proof. vm_compute. reflexivity. Qed.
End ObjectExamples.

(** ** The distance front end *)


Section DistanceProperties.
Variables DistanceRequest DistanceResult Memory : Type.
Variable updateGuess : DistanceRequest -> DistanceResult -> DistanceRequest.
Variable distance_objects_const :
  pointer -> pointer -> DistanceRequest -> DistanceResult ->
  M Memory (FCL_REAL * DistanceResult).
Variable distance_geometries_const :
  pointer -> Transform3f.t -> pointer -> Transform3f.t ->
  DistanceRequest -> DistanceResult ->
  M Memory (FCL_REAL * DistanceResult).
Variable ComputeDistance : Type.
Variable call_const :
  ComputeDistance -> Transform3f.t -> Transform3f.t ->
  DistanceRequest -> DistanceResult ->
  M Memory (FCL_REAL * DistanceResult).

Lemma bind_agrees (const : M Memory (FCL_REAL * DistanceResult))
    (request : DistanceRequest) (m : Memory) :
  agrees_and_updates_guess updateGuess request
    ((r <- const ;;
      let res := fst r in
      let result := snd r in
      let request := updateGuess request result in
      ret (res, request, result)) m)
    (const m).
Proof.
  unfold bind, agrees_and_updates_guess.
  destruct (const m) as [[[res result] m']|]; simpl; auto.
Qed.

(** C7. Each overload that takes the request by mutable reference returns
    when the const-request overload does on the same arguments, with the
    same scalar and the same result, and leaves in the request
    [updateGuess] of that result. *)
Theorem C7_mutable_request_overloads :
  (forall o1 o2 request result m,
      agrees_and_updates_guess updateGuess request
        (Distance.distance_objects _ _ _ updateGuess distance_objects_const
           o1 o2 request result m)
        (distance_objects_const o1 o2 request result m)) /\
  (forall o1 tf1 o2 tf2 request result m,
      agrees_and_updates_guess updateGuess request
        (Distance.distance_geometries _ _ _ updateGuess distance_geometries_const
           o1 tf1 o2 tf2 request result m)
        (distance_geometries_const o1 tf1 o2 tf2 request result m)) /\
  (forall this tf1 tf2 request result m,
      agrees_and_updates_guess updateGuess request
        (Distance.call _ _ _ updateGuess _ call_const
           this tf1 tf2 request result m)
        (call_const this tf1 tf2 request result m)).
Proof.
  repeat split; intros; apply bind_agrees.
Qed.
End DistanceProperties.

Example distance_objects_sample :
  Distance.distance_objects _ _ _ Sample.updateGuess Sample.three_apart
    (Some 1%positive) (Some 2%positive) (Sample.vec 0 0 0) (Sample.vec 0 0 0) tt
  = Ok (Real.of_int 3, Sample.vec 1 0 0, Sample.vec 1 0 0, tt).
Proof. reflexivity. Qed.

(** ** More on CollisionObject *)

(** The tags of a geometry whose class overrides neither tag function. *)
Lemma tags_of_untagged_class (cls : GeometryClass) (g : CollisionGeometry) :
  override_getObjectType cls = None -> override_getNodeType cls = None ->
  getObjectType cls g = OT_UNKNOWN /\ getNodeType cls g = BV_UNKNOWN.
Proof.
  intros Hot Hnt. unfold getObjectType, getNodeType. rewrite Hot, Hnt.
  split; reflexivity.
Qed.

Section ObjectFrames.
Import CollisionObject.

Variable isIdentity : Matrix3f -> bool.
Variable AABB_default : AABB.
Variable Transform3f_default : Transform3f.t.

Local Abbreviation computeAABB := (CollisionObject.computeAABB isIdentity).
Local Abbreviation world_bound := (CollisionObject.world_bound isIdentity).
Local Abbreviation init := (CollisionObject.init isIdentity).
Local Abbreviation new := (CollisionObject.new isIdentity AABB_default Transform3f_default).
Local Abbreviation new_tf := (CollisionObject.new_tf isIdentity AABB_default).
Local Abbreviation new_RT := (CollisionObject.new_RT isIdentity AABB_default).
Local Abbreviation setCollisionGeometry := (CollisionObject.setCollisionGeometry isIdentity).

Lemma computeAABB_dangling (o : object) (a : loc) (w : World) :
  cgeom o = Some a -> heap w !! a = None -> computeAABB o w = Fault.
Proof.
  intros Hc Hg. unfold CollisionObject.computeAABB. rewrite Hc.
  destruct (isIdentity _); unfold bind, deref; rewrite Hg; reflexivity.
Qed.

(** What a [computeAABB] that returns has done. *)
Lemma computeAABB_inv (o o' : object) (w w' : World) :
  computeAABB o w = Ok (o', w') ->
  exists a g, cgeom o = Some a /\ heap w !! a = Some g /\ w' = w /\
              o' = set_aabb (world_bound (t o) (members g)) o.
Proof.
  intros H. destruct (cgeom o) as [a|] eqn:Hc.
  - destruct (heap w !! a) as [g|] eqn:Hg.
    + rewrite (computeAABB_Some isIdentity o a g w Hc Hg) in H.
      injection H as <- <-. exists a, g. auto.
    + rewrite (computeAABB_dangling o a w Hc Hg) in H. discriminate H.
  - rewrite (computeAABB_null isIdentity o w Hc) in H. discriminate H.
Qed.

(** What an [init] that returns has done on an object that has a geometry. *)
Lemma init_inv (flag : bool) (o o' : object) (a : loc) (w w' : World) :
  cgeom o = Some a -> init flag o w = Ok (o', w') ->
  exists g, heap w !! a = Some g /\ w' = after_local_bound flag a g w /\
            o' = set_aabb (world_bound (t o)
                             (members (if flag then with_local_bound g else g))) o.
Proof.
  intros Hc H. destruct (heap w !! a) as [g|] eqn:Hg.
  - rewrite (init_Some isIdentity flag o a g w Hc Hg) in H.
    injection H as <- <-. exists g. auto.
  - exfalso. unfold CollisionObject.init in H. rewrite Hc in H.
    destruct flag.
    + unfold bind, call_computeLocalAABB in H. rewrite Hg in H. discriminate H.
    + unfold bind, ret in H.
      rewrite (computeAABB_dangling o a w Hc Hg) in H. discriminate H.
Qed.

(** A [computeAABB] that returns has changed the cached box only: the
    world, the geometry pointer, the transform and the user data are as
    before; and a second [computeAABB] changes nothing. *)
Theorem computeAABB_frame_and_idempotent (o o' : object) (w w' : World) :
  computeAABB o w = Ok (o', w') ->
  w' = w /\ cgeom o' = cgeom o /\ t o' = t o /\ user_data o' = user_data o /\
  computeAABB o' w' = Ok (o', w').
Proof.
  intros H. apply computeAABB_inv in H as (a & g & Hc & Hg & -> & ->).
  repeat split.
  rewrite (computeAABB_Some isIdentity
             (set_aabb (world_bound (t o) (members g)) o) a g w Hc Hg).
  reflexivity.
Qed.

(** On an object without geometry, as a constructor given the null
    pointer returns it, [computeAABB], [getObjectType] and [getNodeType]
    dereference the null pointer; on an object whose geometry overrides
    neither tag function they return [OT_UNKNOWN] and [BV_UNKNOWN]. *)
Theorem null_geometry_faults_later :
  (forall tf flag w,
      exists o, new_tf None tf flag w = Ok (o, w) /\ cgeom o = None) /\
  (forall o w,
      cgeom o = None ->
      computeAABB o w = Fault /\ getObjectType o w = Fault /\
      getNodeType o w = Fault) /\
  (forall o a g w,
      cgeom o = Some a -> heap w !! a = Some g ->
      override_getObjectType (class_of g) = None ->
      override_getNodeType (class_of g) = None ->
      getObjectType o w = Ok (OT_UNKNOWN, w) /\
      getNodeType o w = Ok (BV_UNKNOWN, w)).
Proof.
  split; [|split].
  - intros tf flag w. eexists. split; reflexivity.
  - intros o w Hc. split; [by apply computeAABB_null|].
    unfold getObjectType, getNodeType. rewrite Hc. split; reflexivity.
  - intros o a g w Hc Hg Hot Hnt.
    unfold getObjectType, getNodeType. rewrite Hc.
    rewrite !(bind_Ok _ _ _ _ _ (deref_Some a g w Hg)).
    destruct (tags_of_untagged_class (class_of g) (members g) Hot Hnt) as [-> ->].
    split; reflexivity.
Qed.

(** A constructor given a geometry returns an object that holds the
    pointer and the transform it was given and no user data, with a cached
    box that is up to date: [computeAABB] on it changes nothing. *)
Theorem constructors_leave_bound_in_sync
    (a : loc) (g : GeometryObject) (w : World) (flag : bool) :
  heap w !! a = Some g ->
  (forall tf, exists o' w',
      new_tf (Some a) tf flag w = Ok (o', w') /\
      cgeom o' = Some a /\ t o' = tf /\ user_data o' = None /\
      computeAABB o' w' = Ok (o', w')) /\
  (exists o' w',
      new (Some a) flag w = Ok (o', w') /\
      cgeom o' = Some a /\ t o' = Transform3f_default /\ user_data o' = None /\
      computeAABB o' w' = Ok (o', w')) /\
  (forall R T, exists o' w',
      new_RT (Some a) R T flag w = Ok (o', w') /\
      cgeom o' = Some a /\ t o' = Transform3f.mk R T /\ user_data o' = None /\
      computeAABB o' w' = Ok (o', w')).
Proof.
  intros Hg.
  assert (Hall : forall tf, exists o' w',
             new_tf (Some a) tf flag w = Ok (o', w') /\
             cgeom o' = Some a /\ t o' = tf /\ user_data o' = None /\
             computeAABB o' w' = Ok (o', w')).
  { intros tf. do 2 eexists. split.
    - by apply (init_Some isIdentity flag _ a g w).
    - repeat split.
      rewrite (computeAABB_Some isIdentity _ a
                 (if flag then with_local_bound g else g));
        [reflexivity | reflexivity | by apply after_local_bound_lookup]. }
  split; [exact Hall|]. split.
  - exact (Hall Transform3f_default).
  - intros R T. exact (Hall (Transform3f.mk R T)).
Qed.

(** A constructor given a geometry and [compute_local_aabb = false]
    leaves the world as it is; with [true] it logs one [computeLocalAABB],
    on that geometry, whose data members are replaced by what its class's
    overrider computes, its class staying the same. Either way every other
    address of the heap is untouched. *)
Theorem constructor_touches_its_geometry_only
    (a : loc) (g : GeometryObject) (w w' : World) (flag : bool)
    (tf : Transform3f.t) (o' : object) :
  heap w !! a = Some g ->
  new_tf (Some a) tf flag w = Ok (o', w') ->
  (flag = false -> w' = w) /\
  (flag = true ->
   computeLocalAABB_calls w' = a :: computeLocalAABB_calls w /\
   heap w' !! a =
     Some (mkGeometryObject (computeLocalAABB (class_of g) (members g))
                            (class_of g))) /\
  (forall b, b <> a -> heap w' !! b = heap w !! b).
Proof.
  intros Hg H.
  apply (init_inv flag _ _ a) in H as (g0 & Hg0 & -> & _); [|reflexivity].
  rewrite Hg in Hg0. injection Hg0 as <-.
  split; [|split].
  - by intros ->.
  - intros ->. split; [reflexivity|]. simpl. apply lookup_insert_eq.
  - intros b Hb. destruct flag; simpl; [|reflexivity].
    by apply lookup_insert_ne.
Qed.

(** What an [init] that returns keeps. *)
Lemma init_keeps (flag : bool) (o o' : object) (w w' : World) :
  init flag o w = Ok (o', w') ->
  cgeom o' = cgeom o /\ t o' = t o /\ user_data o' = user_data o /\
  (forall b, Some b <> cgeom o -> heap w' !! b = heap w !! b).
Proof.
  intros H. destruct (cgeom o) as [a|] eqn:Hc.
  - destruct (init_inv flag o o' a w w' Hc H) as (g & Hg & Hw & Ho).
    subst o' w'. repeat split; try (simpl; congruence).
    intros b Hb. destruct flag; simpl; [|reflexivity].
    apply lookup_insert_ne. congruence.
  - rewrite (init_null isIdentity flag o w Hc) in H. injection H as <- <-.
    repeat split; congruence.
Qed.

(** A [setCollisionGeometry] that returns makes the same call a no-op:
    called again with the same pointer, whatever the flag, it returns the
    object and the world as they are. *)
Theorem setCollisionGeometry_idempotent
    (p : shared_ptr) (flag flag' : bool) (o o' : object) (w w' : World) :
  setCollisionGeometry p flag o w = Ok (o', w') ->
  setCollisionGeometry p flag' o' w' = Ok (o', w').
Proof.
  intros H.
  assert (Hp : cgeom o' = p).
  { unfold CollisionObject.setCollisionGeometry in H.
    destruct (bool_decide (p <> cgeom o)) eqn:Hd.
    - apply init_keeps in H as (Hc & _). exact Hc.
    - apply bool_decide_eq_false in Hd. injection H as <- <-.
      destruct (decide (p = cgeom o)) as [->|Hne]; [reflexivity|].
      contradiction. }
  unfold CollisionObject.setCollisionGeometry.
  rewrite bool_decide_eq_false_2 by (rewrite Hp; auto). reflexivity.
Qed.

(** The calls of [computeLocalAABB] an [init] that returns has made: none,
    or one when the flag is set, on the geometry of the object. *)
Lemma init_calls (flag : bool) (o o' : object) (w w' : World) :
  init flag o w = Ok (o', w') ->
  computeLocalAABB_calls w' = computeLocalAABB_calls w \/
  (flag = true /\ exists a, cgeom o = Some a /\
                            computeLocalAABB_calls w' = a :: computeLocalAABB_calls w).
Proof.
  intros H. destruct (cgeom o) as [a|] eqn:Hc.
  - destruct (init_inv flag o o' a w w' Hc H) as (g & Hg & Hw & Ho).
    subst w'. destruct flag; simpl; [right|left; reflexivity].
    split; [reflexivity|]. exists a. split; reflexivity.
  - rewrite (init_null isIdentity flag o w Hc) in H. injection H as <- <-.
    left. reflexivity.
Qed.

(** A [setCollisionGeometry] that returns leaves the transform and the
    user data of the object as they are, stores the pointer it was given,
    and has called [computeLocalAABB] at most once: not at all, or, when the
    flag is set and the pointer differs from the one the object held, once
    on the geometry it was given. *)
Theorem setCollisionGeometry_frame
    (p : shared_ptr) (flag : bool) (o o' : object) (w w' : World) :
  setCollisionGeometry p flag o w = Ok (o', w') ->
  cgeom o' = p /\ t o' = t o /\ user_data o' = user_data o /\
  (computeLocalAABB_calls w' = computeLocalAABB_calls w \/
   (flag = true /\ p <> cgeom o /\
    exists a, p = Some a /\
              computeLocalAABB_calls w' = a :: computeLocalAABB_calls w)).
Proof.
  intros H. unfold CollisionObject.setCollisionGeometry in H.
  destruct (bool_decide (p <> cgeom o)) eqn:Hd.
  - apply bool_decide_eq_true in Hd.
    destruct (init_keeps _ _ _ _ _ H) as (Hc & Ht & Hu & _).
    repeat split; try assumption.
    destruct (init_calls _ _ _ _ _ H) as [Hsame|(Hflag & a & Ha & Hcalls)].
    + left. exact Hsame.
    + right. split; [exact Hflag|]. split; [exact Hd|]. exists a.
      split; [exact Ha | exact Hcalls].
  - apply bool_decide_eq_false in Hd. injection H as <- <-.
    destruct (decide (p = cgeom o)) as [->|Hne]; [|contradiction].
    repeat split. left. reflexivity.
Qed.

(** Geometries are shared: when a constructor with
    [compute_local_aabb = true] is given a geometry that another object
    holds, the next [computeAABB] of that other object stores the box of the
    recomputed local bound. *)
Theorem shared_geometry_is_recomputed_for_all
    (a : loc) (g : GeometryObject) (w w' : World) (tf : Transform3f.t)
    (o1 o2 : object) :
  cgeom o1 = Some a -> heap w !! a = Some g ->
  new_tf (Some a) tf true w = Ok (o2, w') ->
  computeAABB o1 w' =
    Ok (set_aabb (world_bound (t o1)
                    (computeLocalAABB (class_of g) (members g))) o1, w').
Proof.
  intros Hc Hg H.
  apply (init_inv true _ _ a) in H as (g0 & Hg0 & -> & _); [|reflexivity].
  rewrite Hg in Hg0. injection Hg0 as <-.
  apply (computeAABB_Some isIdentity o1 a (with_local_bound g)); [exact Hc|].
  simpl. apply lookup_insert_eq.
Qed.
End ObjectFrames.

(** ** Equality of geometries *)

Lemma Real_eqb_refl_iff (x : FCL_REAL) : (x == x)%real = true <-> is_nan x = false.
Proof.
  unfold Real.eqb.
  destruct x as [s|s| |s m e]; simpl; try (split; congruence).
  - destruct s; split; congruence.
  - rewrite Z.compare_refl, compare_cont_Eq, Pos.compare_refl.
    destruct s; simpl; split; congruence.
Qed.

Lemma Real_eqb_sym (x y : FCL_REAL) : (x == y)%real = (y == x)%real.
Proof.
  unfold Real.eqb.
  destruct (SFcompare x y) as [c|] eqn:Hxy; [destruct c|].
  - by rewrite (SFcompare_Eq_sym x y Hxy).
  - destruct (SFcompare y x) as [[]|] eqn:Hyx; try reflexivity.
    rewrite (SFcompare_Eq_sym y x Hyx) in Hxy. discriminate Hxy.
  - destruct (SFcompare y x) as [[]|] eqn:Hyx; try reflexivity.
    rewrite (SFcompare_Eq_sym y x Hyx) in Hxy. discriminate Hxy.
  - destruct (SFcompare y x) as [[]|] eqn:Hyx; try reflexivity.
    rewrite (SFcompare_Eq_sym y x Hyx) in Hxy. discriminate Hxy.
Qed.

Lemma Vec3f_eqb_sym (u v : Vec3f) : Vec3f_eqb u v = Vec3f_eqb v u.
Proof.
  unfold Vec3f_eqb.
  by rewrite (Real_eqb_sym (v0 u)), (Real_eqb_sym (v1 u)), (Real_eqb_sym (v2 u)).
Qed.

Section GeometryEqualityProperties.
Variable AABB_eqb : AABB -> AABB -> bool.

(** The scalar comparisons of [operator==] on a geometry and itself. *)
Lemma scalars_eq_self (g : CollisionGeometry) :
  (cost_density g == cost_density g)%real
  && (threshold_occupied g == threshold_occupied g)%real
  && (threshold_free g == threshold_free g)%real
  && Vec3f_eqb (aabb_center g) (aabb_center g)
  && (aabb_radius g == aabb_radius g)%real = nan_free g.
Proof.
  assert (E : forall x, (x == x)%real = negb (is_nan x)).
  { intros x. pose proof (Real_eqb_refl_iff x) as H.
    destruct (x == x)%real, (is_nan x); simpl; try reflexivity.
    - destruct H as [H _]. discriminate (H eq_refl).
    - destruct H as [_ H]. discriminate (H eq_refl). }
  unfold nan_free, Vec3f_eqb. rewrite !E.
  rewrite !andb_assoc. reflexivity.
Qed.

(** [operator==] is not reflexive: a geometry compares equal to itself
    exactly when none of its compared scalar members is a NaN and its local
    box compares equal to itself. *)
Theorem operator_eq_self (g : CollisionGeometry) :
  operator_eq AABB_eqb g g = true <->
  nan_free g = true /\ AABB_eqb (aabb_local g) (aabb_local g) = true.
Proof.
  unfold operator_eq. rewrite scalars_eq_self. apply andb_true_iff.
Qed.

(** When the comparison of boxes is symmetric, so are [operator==] and
    [operator!=], each the negation of the other; and neither reads
    [user_data]. *)
Theorem operator_eq_symmetric (g h : CollisionGeometry) (d : void_ptr) :
  (forall a b, AABB_eqb a b = AABB_eqb b a) ->
  operator_eq AABB_eqb g h = operator_eq AABB_eqb h g /\
  operator_ne AABB_eqb g h = operator_ne AABB_eqb h g /\
  operator_ne AABB_eqb g h = negb (operator_eq AABB_eqb g h) /\
  operator_eq AABB_eqb (setUserData d g) h = operator_eq AABB_eqb g h /\
  operator_eq AABB_eqb g (setUserData d h) = operator_eq AABB_eqb g h.
Proof.
  intros Hsym.
  assert (E : operator_eq AABB_eqb g h = operator_eq AABB_eqb h g).
  { unfold operator_eq.
    rewrite (Real_eqb_sym (cost_density g)), (Real_eqb_sym (threshold_occupied g)),
      (Real_eqb_sym (threshold_free g)), (Real_eqb_sym (aabb_radius g)),
      (Vec3f_eqb_sym (aabb_center g)), (Hsym (aabb_local g)).
    reflexivity. }
  split; [exact E|]. split; [unfold operator_ne; by rewrite E|].
  split; [reflexivity|]. split; reflexivity.
Qed.

(** The copy constructor copies the occupancy members and the bounding
    sphere but not the local box: the copy is occupied and free as the
    original is, and compares equal to the original exactly when the
    original has no NaN among its compared scalars and a default-constructed
    box compares equal to the original's local box. *)
Theorem copy_compares_equal_iff
    (aabb0 : AABB) (ud : void_ptr) (g : CollisionGeometry) :
  isOccupied (CollisionGeometry_copy aabb0 ud g) = isOccupied g /\
  isFree (CollisionGeometry_copy aabb0 ud g) = isFree g /\
  aabb_local (CollisionGeometry_copy aabb0 ud g) = aabb0 /\
  (operator_eq AABB_eqb (CollisionGeometry_copy aabb0 ud g) g = true <->
   nan_free g = true /\ AABB_eqb aabb0 (aabb_local g) = true).
Proof.
  split; [reflexivity|]. split; [reflexivity|]. split; [reflexivity|].
  unfold operator_eq. simpl. rewrite scalars_eq_self. apply andb_true_iff.
Qed.
End GeometryEqualityProperties.

(** ** Equality of distance facades *)

Section ComputeDistanceEquality.
Import ComputeDistance.
Variable GJKSolver : Type.
Variable GJKSolver_eqb : GJKSolver -> GJKSolver -> bool.

Lemma ComputeDistance_eq_spec (x y : object GJKSolver) :
  operator_eq GJKSolver GJKSolver_eqb x y = true <->
  o1 _ x = o1 _ y /\ o2 _ x = o2 _ y /\ swap_geoms _ x = swap_geoms _ y /\
  GJKSolver_eqb (solver _ x) (solver _ y) = true /\ func _ x = func _ y.
Proof.
  unfold operator_eq.
  rewrite !andb_true_iff, !bool_decide_eq_true, Bool.eqb_true_iff. tauto.
Qed.

(** [ComputeDistance::operator==] compares the geometries and the
    function by address: whatever the comparison of solvers is, it holds
    only between facades with the same two geometry pointers, the same
    function pointer and the same swap flag, and [operator!=] is its
    negation. When the comparison of solvers is an equivalence, so is
    [operator==]. *)
Theorem ComputeDistance_eq_equivalence :
  (forall x y, operator_eq GJKSolver GJKSolver_eqb x y = true ->
               o1 _ x = o1 _ y /\ o2 _ x = o2 _ y /\ func _ x = func _ y /\
               swap_geoms _ x = swap_geoms _ y) /\
  (forall x y, operator_ne GJKSolver GJKSolver_eqb x y
               = negb (operator_eq GJKSolver GJKSolver_eqb x y)) /\
  ((forall s, GJKSolver_eqb s s = true) ->
   (forall s s', GJKSolver_eqb s s' = true -> GJKSolver_eqb s' s = true) ->
   (forall s s' s'', GJKSolver_eqb s s' = true -> GJKSolver_eqb s' s'' = true ->
                     GJKSolver_eqb s s'' = true) ->
   (forall x, operator_eq GJKSolver GJKSolver_eqb x x = true) /\
   (forall x y, operator_eq GJKSolver GJKSolver_eqb x y = true ->
                operator_eq GJKSolver GJKSolver_eqb y x = true) /\
   (forall x y z, operator_eq GJKSolver GJKSolver_eqb x y = true ->
                  operator_eq GJKSolver GJKSolver_eqb y z = true ->
                  operator_eq GJKSolver GJKSolver_eqb x z = true)).
Proof.
  split; [|split].
  - intros x y H. apply ComputeDistance_eq_spec in H as (?&?&?&?&?). auto.
  - reflexivity.
  - intros Hr Hs Ht. split; [|split].
    + intros x. apply ComputeDistance_eq_spec. auto.
    + intros x y H. apply ComputeDistance_eq_spec in H as (?&?&?&?&?).
      apply ComputeDistance_eq_spec. repeat split; try congruence; auto.
    + intros x y z H1 H2.
      apply ComputeDistance_eq_spec in H1 as (?&?&?&?&?).
      apply ComputeDistance_eq_spec in H2 as (?&?&?&?&?).
      apply ComputeDistance_eq_spec. repeat split; try congruence; eauto.
Qed.
End ComputeDistanceEquality.

(** ** The further properties on the concrete data *)

Section MoreExamples.
Import CollisionObject.

(** The constructor on the cube of address 1, with the transform of
    [Sample.shifted] and the local bound computed. *)
Example new_tf_on_cube :
  new_tf Sample.isIdentity Sample.AABB_default (Some 1%positive)
    (t Sample.shifted) true Sample.world =
  Ok (mk (Some 1%positive) (t Sample.shifted)
         (mkAABB (Sample.vec 4 (-1) (-1)) (Sample.vec 6 1 1)) None,
      mkWorld (<[1%positive := Sample.cube_ready]> (heap Sample.world))
              [1%positive]).
Proof. vm_compute. reflexivity. Qed.

(** [computeAABB_frame_and_idempotent] at the cube of address 2 moved by (5, 0, 0). *)
Lemma computeAABB_frame_and_idempotent_witness :
  let o := Sample.shifted in
  let o' := set_aabb (mkAABB (Sample.vec 4 (-1) (-1)) (Sample.vec 6 1 1)) o in
  Sample.world = Sample.world /\ cgeom o' = cgeom o /\ t o' = t o /\
  user_data o' = user_data o /\
  computeAABB Sample.isIdentity o' Sample.world = Ok (o', Sample.world).
Proof.
  exact (computeAABB_frame_and_idempotent Sample.isIdentity Sample.shifted _
           Sample.world Sample.world shifted_cube_bound).
Defined.

(** [constructors_leave_bound_in_sync] at the cube of address 1, with the local bound computed. *)
Lemma constructors_leave_bound_in_sync_witness :
  (forall tf, exists o' w',
      new_tf Sample.isIdentity Sample.AABB_default (Some 1%positive) tf true
        Sample.world = Ok (o', w') /\
      cgeom o' = Some 1%positive /\ t o' = tf /\ user_data o' = None /\
      computeAABB Sample.isIdentity o' w' = Ok (o', w')) /\
  (exists o' w',
      new Sample.isIdentity Sample.AABB_default Sample.Transform3f_default
        (Some 1%positive) true Sample.world = Ok (o', w') /\
      cgeom o' = Some 1%positive /\ t o' = Sample.Transform3f_default /\
      user_data o' = None /\
      computeAABB Sample.isIdentity o' w' = Ok (o', w')) /\
  (forall R T, exists o' w',
      new_RT Sample.isIdentity Sample.AABB_default (Some 1%positive) R T true
        Sample.world = Ok (o', w') /\
      cgeom o' = Some 1%positive /\ t o' = Transform3f.mk R T /\
      user_data o' = None /\
      computeAABB Sample.isIdentity o' w' = Ok (o', w')).
Proof.
  exact (constructors_leave_bound_in_sync Sample.isIdentity Sample.AABB_default
           Sample.Transform3f_default 1%positive Sample.cube Sample.world true
           world_lookup_1).
Defined.

(** [constructor_touches_its_geometry_only] at the cube of address 1, with the local bound computed. *)
Lemma constructor_touches_its_geometry_only_witness :
  let w' := mkWorld (<[1%positive := Sample.cube_ready]> (heap Sample.world))
                    [1%positive] in
  (true = false -> w' = Sample.world) /\
  (true = true ->
   computeLocalAABB_calls w' = 1%positive :: computeLocalAABB_calls Sample.world /\
   heap w' !! 1%positive =
     Some (mkGeometryObject
             (computeLocalAABB (class_of Sample.cube) (members Sample.cube))
             (class_of Sample.cube))) /\
  (forall b, b <> 1%positive -> heap w' !! b = heap Sample.world !! b).
Proof.
  exact (constructor_touches_its_geometry_only Sample.isIdentity
           Sample.AABB_default 1%positive Sample.cube Sample.world _ true
           (t Sample.shifted) _ world_lookup_1 new_tf_on_cube).
Defined.

(** [setCollisionGeometry_idempotent] after [setCollisionGeometry] has given [Sample.shifted] the cube of
    address 1. *)
Lemma setCollisionGeometry_idempotent_witness :
  let o' := mk (Some 1%positive) (t Sample.shifted)
               (mkAABB (Sample.vec 4 (-1) (-1)) (Sample.vec 6 1 1)) None in
  let w' := mkWorld (<[1%positive := Sample.cube_ready]> (heap Sample.world))
                    [1%positive] in
  setCollisionGeometry Sample.isIdentity (Some 1%positive) false o' w' = Ok (o', w').
Proof.
  exact (setCollisionGeometry_idempotent Sample.isIdentity (Some 1%positive)
           true false Sample.shifted _ Sample.world _
           setCollisionGeometry_new_geometry).
Defined.

(** [setCollisionGeometry_frame] for the same call. *)
Lemma setCollisionGeometry_frame_witness :
  let o' := mk (Some 1%positive) (t Sample.shifted)
               (mkAABB (Sample.vec 4 (-1) (-1)) (Sample.vec 6 1 1)) None in
  let w' := mkWorld (<[1%positive := Sample.cube_ready]> (heap Sample.world))
                    [1%positive] in
  cgeom o' = Some 1%positive /\ t o' = t Sample.shifted /\
  user_data o' = user_data Sample.shifted /\
  (computeLocalAABB_calls w' = computeLocalAABB_calls Sample.world \/
   (true = true /\ Some 1%positive <> cgeom Sample.shifted /\
    exists a, Some 1%positive = Some a /\
              computeLocalAABB_calls w' = a :: computeLocalAABB_calls Sample.world)).
Proof.
  exact (setCollisionGeometry_frame Sample.isIdentity (Some 1%positive) true
           Sample.shifted _ Sample.world _ setCollisionGeometry_new_geometry).
Defined.

(** [shared_geometry_is_recomputed_for_all]: an object that holds the cube of address 1 while a constructor
    recomputes that cube's local bound. *)
Lemma shared_geometry_is_recomputed_for_all_witness :
  let o1 := set_cgeom (Some 1%positive) Sample.turned in
  let w' := mkWorld (<[1%positive := Sample.cube_ready]> (heap Sample.world))
                    [1%positive] in
  computeAABB Sample.isIdentity o1 w' =
    Ok (set_aabb (world_bound Sample.isIdentity (t o1)
                    (computeLocalAABB (class_of Sample.cube) (members Sample.cube)))
                 o1, w').
Proof.
  exact (shared_geometry_is_recomputed_for_all Sample.isIdentity
           Sample.AABB_default 1%positive Sample.cube Sample.world _
           (t Sample.shifted) (set_cgeom (Some 1%positive) Sample.turned) _
           eq_refl world_lookup_1 new_tf_on_cube).
Defined.
End MoreExamples.

Lemma Sample_AABB_eqb_sym (a b : AABB) : Sample.AABB_eqb a b = Sample.AABB_eqb b a.
Proof.
  unfold Sample.AABB_eqb.
  by rewrite (Vec3f_eqb_sym (min_ a)), (Vec3f_eqb_sym (max_ a)).
Qed.

(** [operator_eq_symmetric] at two sample geometries, with boxes compared corner by corner. *)
Lemma operator_eq_symmetric_witness :
  let g := Sample.both_occupied_and_free in
  let h := members Sample.cube_ready in
  operator_eq Sample.AABB_eqb g h = operator_eq Sample.AABB_eqb h g /\
  operator_ne Sample.AABB_eqb g h = operator_ne Sample.AABB_eqb h g /\
  operator_ne Sample.AABB_eqb g h = negb (operator_eq Sample.AABB_eqb g h) /\
  operator_eq Sample.AABB_eqb (setUserData (Some 7%positive) g) h
    = operator_eq Sample.AABB_eqb g h /\
  operator_eq Sample.AABB_eqb g (setUserData (Some 7%positive) h)
    = operator_eq Sample.AABB_eqb g h.
Proof.
  exact (operator_eq_symmetric Sample.AABB_eqb Sample.both_occupied_and_free
           (members Sample.cube_ready) (Some 7%positive) Sample_AABB_eqb_sym).
Defined.

(** A geometry with a NaN density is not equal to itself, and the copy of a
    geometry whose local bound was computed is not equal to it. *)
Example operator_eq_fails_on_itself_and_on_copy :
  operator_eq Sample.AABB_eqb
    (mkCollisionGeometry (Sample.vec 0 0 0) (Real.of_int 1) Sample.AABB_default
       None Real.NAN (Real.of_int 1) (Real.of_int 0))
    (mkCollisionGeometry (Sample.vec 0 0 0) (Real.of_int 1) Sample.AABB_default
       None Real.NAN (Real.of_int 1) (Real.of_int 0)) = false /\
  operator_eq Sample.AABB_eqb (members Sample.cube_ready)
    (members Sample.cube_ready) = true /\
  operator_eq Sample.AABB_eqb
    (CollisionGeometry_copy Sample.AABB_default None (members Sample.cube_ready))
    (members Sample.cube_ready) = false.
Proof. vm_compute. repeat split. Qed.

(** [ComputeDistance_eq_equivalence] with solvers that are compared as
    booleans, which is an equivalence. *)
Lemma ComputeDistance_eq_equivalence_witness :
  (forall x, ComputeDistance.operator_eq bool Bool.eqb x x = true) /\
  (forall x y, ComputeDistance.operator_eq bool Bool.eqb x y = true ->
               ComputeDistance.operator_eq bool Bool.eqb y x = true) /\
  (forall x y z, ComputeDistance.operator_eq bool Bool.eqb x y = true ->
                 ComputeDistance.operator_eq bool Bool.eqb y z = true ->
                 ComputeDistance.operator_eq bool Bool.eqb x z = true).
Proof.
  apply (proj2 (proj2 (ComputeDistance_eq_equivalence bool Bool.eqb))).
  - intros []; reflexivity.
  - intros [] []; simpl; congruence.
  - intros [] [] []; simpl; congruence.
Defined.

(** [nan_entry_propagates] at the cube's class, which inherits the inertia about the origin. *)
Lemma nan_entry_propagates_witness :
  (base_computeMomentofInertiaRelatedToCOM Sample.cube_class
     (members Sample.cube)).(1, 2) = S754_nan.
Proof.
  exact (nan_entry_propagates Sample.cube_class (members Sample.cube) 1 2 eq_refl).
Defined.

(** [infinite_volume_gives_nan] at the class of infinite volume. *)
Lemma infinite_volume_gives_nan_witness :
  (base_computeMomentofInertiaRelatedToCOM Sample.unbounded_class
     (members Sample.cube)).(0, 0) = S754_nan /\
  (base_computeMomentofInertiaRelatedToCOM Sample.unbounded_class
     (members Sample.cube)).(2, 1) = S754_nan.
Proof.
  assert (Hcom : forall k, ((computeCOM Sample.unbounded_class
                               (members Sample.cube)).[k] == Real.of_int 0)%real = true)
    by (intros [|[|k]]; reflexivity).
  split; apply (infinite_volume_gives_nan _ _ Hcom eq_refl).
Defined.

(** ** The order of scalars *)

Ltac fold_compare :=
  repeat match goal with
         | H : context [Pos.compare_cont Eq ?a ?b] |- _ =>
             rewrite (compare_cont_Eq a b) in H
         | |- context [Pos.compare_cont Eq ?a ?b] =>
             rewrite (compare_cont_Eq a b)
         end.

Ltac compare_cases :=
  fold_compare;
  repeat match goal with
         | H : context [Z.compare ?a ?b] |- _ =>
             destruct (Z.compare_spec a b); simpl in H; try discriminate H
         | H : context [Pos.compare ?a ?b] |- _ =>
             destruct (Pos.compare_spec a b); simpl in H; try discriminate H
         end;
  repeat match goal with
         | |- context [Z.compare ?a ?b] =>
             destruct (Z.compare_spec a b); simpl; try lia
         | |- context [Pos.compare ?a ?b] =>
             destruct (Pos.compare_spec a b); simpl; try lia
         end;
  try reflexivity; try lia.

Lemma geb_leb (x y : FCL_REAL) : (x >=? y)%real = (y <=? x)%real.
Proof.
  unfold Real.geb, Real.leb.
  destruct x as [sx|sx| |sx mx ex], y as [sy|sy| |sy my ey]; simpl;
    try reflexivity;
    try (destruct sx; reflexivity); try (destruct sy; reflexivity);
    try (destruct sx, sy; reflexivity).
  destruct sx, sy; try reflexivity;
    fold_compare; rewrite (Z.compare_antisym ex ey), (Pos.compare_antisym mx my);
    destruct (ex ?= ey)%Z, (mx ?= my)%positive; reflexivity.
Qed.

Lemma leb_trans (x y z : FCL_REAL) :
  (x <=? y)%real = true -> (y <=? z)%real = true -> (x <=? z)%real = true.
Proof.
  unfold Real.leb.
  destruct x as [sx|sx| |sx mx ex], y as [sy|sy| |sy my ey],
           z as [sz|sz| |sz mz ez]; simpl;
    try discriminate; try reflexivity;
    try (destruct sx; simpl; (discriminate || reflexivity));
    try (destruct sy; simpl; (discriminate || reflexivity));
    try (destruct sz; simpl; (discriminate || reflexivity));
    try (destruct sx, sy; simpl; (discriminate || reflexivity));
    try (destruct sx, sz; simpl; (discriminate || reflexivity));
    try (destruct sy, sz; simpl; (discriminate || reflexivity));
    try (destruct sx, sy, sz; simpl; (discriminate || reflexivity)).
  all: destruct sx, sy, sz; simpl; try discriminate; try reflexivity;
    intros H1 H2; compare_cases.
Qed.

(** Scalars that compare equal are identical or are both zeros. *)
Lemma eqb_same (x y : FCL_REAL) :
  (x == y)%real = true -> same_up_to_zero_sign x y.
Proof.
  unfold Real.eqb, same_up_to_zero_sign.
  destruct x as [sx|sx| |sx mx ex], y as [sy|sy| |sy my ey]; simpl;
    try discriminate; auto;
    try (destruct sx; discriminate); try (destruct sy; discriminate).
  - destruct sx, sy; (discriminate || auto).
  - destruct sx, sy; try discriminate; intros H; left; fold_compare;
      destruct (Z.compare_spec ex ey); try discriminate H;
      destruct (Pos.compare_spec mx my); try discriminate H; subst; reflexivity.
Qed.

(** Comparing with a scalar gives the same as comparing with one that
    compares equal to it. *)
Lemma SFcompare_same_l (x x' y : FCL_REAL) :
  same_up_to_zero_sign x x' -> SFcompare x y = SFcompare x' y.
Proof.
  intros [->|[Hx Hx']]; [reflexivity|].
  destruct x; try discriminate Hx. destruct x'; try discriminate Hx'.
  destruct y; reflexivity.
Qed.

Lemma SFcompare_same_r (x y y' : FCL_REAL) :
  same_up_to_zero_sign y y' -> SFcompare x y = SFcompare x y'.
Proof.
  intros [->|[Hy Hy']]; [reflexivity|].
  destruct y; try discriminate Hy. destruct y'; try discriminate Hy'.
  destruct x; reflexivity.
Qed.

(** ** Occupancy, continued *)

(** When the occupied threshold is not below or equal to the free threshold,
    no geometry is both occupied and free. *)
Theorem occupied_and_free_exclude_each_other (g : CollisionGeometry) :
  (threshold_occupied g <=? threshold_free g)%real = false ->
  isOccupied g && isFree g = false.
Proof.
  intros Hord. unfold isOccupied, isFree.
  destruct (cost_density g >=? threshold_occupied g)%real eqn:Ho; [|reflexivity].
  destruct (cost_density g <=? threshold_free g)%real eqn:Hf; [|reflexivity].
  rewrite geb_leb in Ho.
  rewrite (leb_trans _ _ _ Ho Hf) in Hord. discriminate Hord.
Qed.

(** A default-constructed geometry has its thresholds in that order. *)
Lemma occupied_and_free_exclude_each_other_witness :
  isOccupied (CollisionGeometry_new Sample.AABB_default None)
  && isFree (CollisionGeometry_new Sample.AABB_default None) = false.
Proof.
  exact (occupied_and_free_exclude_each_other
           (CollisionGeometry_new Sample.AABB_default None) eq_refl).
Defined.

Section EqualGeometries.
Variable AABB_eqb : AABB -> AABB -> bool.

(** Geometries that [operator==] finds equal are occupied alike and free
    alike. *)
Theorem equal_geometries_have_equal_occupancy (g h : CollisionGeometry) :
  operator_eq AABB_eqb g h = true ->
  isOccupied g = isOccupied h /\ isFree g = isFree h.
Proof.
  unfold operator_eq. rewrite !andb_true_iff.
  intros [[[[[Hc Ho] Hf] _] _] _].
  apply eqb_same in Hc, Ho, Hf.
  unfold isOccupied, isFree, Real.geb, Real.leb.
  rewrite (SFcompare_same_l _ _ (threshold_occupied g) Hc),
    (SFcompare_same_l _ _ (threshold_free g) Hc),
    (SFcompare_same_r (cost_density h) _ _ Ho),
    (SFcompare_same_r (cost_density h) _ _ Hf).
  split; reflexivity.
Qed.
End EqualGeometries.

(** A geometry and the same geometry with other user data and zeros of the
    other sign for its free threshold. *)
Lemma equal_geometries_have_equal_occupancy_witness :
  let g := members Sample.cube_ready in
  let h := mkCollisionGeometry (aabb_center g) (aabb_radius g) (aabb_local g)
             (Some 3%positive) (cost_density g) (threshold_occupied g)
             (S754_zero true) in
  isOccupied g = isOccupied h /\ isFree g = isFree h.
Proof.
  exact (equal_geometries_have_equal_occupancy Sample.AABB_eqb
           (members Sample.cube_ready)
           (mkCollisionGeometry (aabb_center (members Sample.cube_ready))
              (aabb_radius (members Sample.cube_ready))
              (aabb_local (members Sample.cube_ready))
              (Some 3%positive) (cost_density (members Sample.cube_ready))
              (threshold_occupied (members Sample.cube_ready))
              (S754_zero true))
           eq_refl).
Defined.
